(** * Simulated devices: the device contract and the name-based factory

    A shallow embedding of [devices/simulated_device.py]:

    - [SimulatedDevice], an abstract base class (metaclass [ABCMeta]) whose
      constructor binds three references under name-mangled attributes and
      whose three lifecycle methods are abstract with body [pass];
    - [SimulatorFactory.create], which splits a dotted name, imports the
      module, fetches the class with [getattr] and calls it.

    The Python run time the two lean on (string splitting, [importlib],
    attribute lookup, the call protocol of [type] and [object.__new__],
    [ABCMeta]'s computation of [__abstractmethods__]) is modelled next to
    them, as state-passing code over an explicit interpreter state. *)

From stdpp Require Import gmap strings list fin_maps.
From Stdlib Require Import Ascii String.

Local Open Scope string_scope.
Local Open Scope list_scope.

(** ** Strings: [str.split], [str.join], slicing and indexing *)

Module PyStr.

(** [s.split(sep)] for a one-character separator: every occurrence cuts, and
    the result is never empty (["".split(".")] is [[""]]). *)
Fixpoint split (sep : ascii) (s : string) : list string :=
  match s with
  | EmptyString => [EmptyString]
  | String c rest =>
      if Ascii.eqb c sep then EmptyString :: split sep rest
      else match split sep rest with
           | hd :: tl => String c hd :: tl
           | [] => [String c EmptyString]
           end
  end.

(** [sep.join(parts)]. *)
Fixpoint join (sep : string) (parts : list string) : string :=
  match parts with
  | [] => EmptyString
  | [p] => p
  | p :: rest => p +:+ sep +:+ join sep rest
  end.

(** [parts[:-1]]: all but the last element; the empty list stays empty. *)
Fixpoint but_last {A} (parts : list A) : list A :=
  match parts with
  | [] => []
  | [_] => []
  | p :: rest => p :: but_last rest
  end.

(** [parts[-1]]: the last element; [None] stands for Python's [IndexError]
    on an empty list. *)
Fixpoint item_last {A} (parts : list A) : option A :=
  match parts with
  | [] => None
  | [p] => Some p
  | _ :: rest => item_last rest
  end.

(** [name.startswith(".")]. *)
Definition starts_with_dot (s : string) : bool :=
  match s with
  | String c _ => Ascii.eqb c "."
  | EmptyString => false
  end.

(** No occurrence of the character in the string. *)
Fixpoint free_of (sep : ascii) (s : string) : bool :=
  match s with
  | EmptyString => true
  | String c rest => negb (Ascii.eqb c sep) && free_of sep rest
  end.

(** Cutting at the LAST separator, written directly (what [str.rpartition]
    computes): [Some (before, after)], or [None] when there is no separator. *)
Fixpoint cut_last (sep : ascii) (s : string) : option (string * string) :=
  match s with
  | EmptyString => None
  | String c rest =>
      match cut_last sep rest with
      | Some (before, after) => Some (String c before, after)
      | None => if Ascii.eqb c sep then Some (EmptyString, rest) else None
      end
  end.

End PyStr.

(** ** Python objects, exceptions and the interpreter state *)

(** Values the factory and the devices handle. A class object, a plain
    callable and a module object are known by name; an instance carries its
    class and the address of its [__dict__] in the heap. *)
#[warning="-register-all"]
Inductive value :=
| VNone
| VInt (n : Z)
| VStr (s : string)
| VDict (items : list (string * value))
| VFunc (name : string)
| VClass (name : string)
| VObj (cls : string) (addr : nat)
| VModule (name : string).

(** The exception classes that occur. *)
Inductive exn_type :=
| ValueError
| TypeError
| ImportError
| ModuleNotFoundError
| AttributeError
| IndexError
| SystemError
| UserException (name : string).

Record exn := Exn { exn_class : exn_type; exn_msg : string }.

Inductive outcome (A : Type) :=
| Return (a : A)
| Raise (e : exn).
Arguments Return {A} a.
Arguments Raise {A} e.

(** A module object: its name and its namespace. *)
Record pymodule := PyModule { mod_name : string; mod_dict : gmap string value }.

(** What an observer of the interpreter sees, in order. The trace is ghost
    state: it records the steps, the program never reads it. *)
Inductive event :=
| EvImport (name : string)                      (* importlib.import_module(name) *)
| EvGetattr (module attr : string)              (* getattr(module, attr) *)
| EvCall (callee : value) (args : list value)   (* callee( *args ) *)
| EvMethod (owner meth : string)                (* the function a class binds is called *)
| EvInvoke (func : string) (args : list value). (* a plain callable is invoked *)

Record interp := Interp {
  sys_modules : gmap string pymodule;       (* sys.modules *)
  heap : gmap nat (gmap string value);      (* instance __dict__s by address *)
  trace : list event
}.

(** Code that runs in the interpreter: it may change the state and either
    returns or raises. A raise keeps the state changes made so far. *)
Definition Py (A : Type) : Type := interp -> outcome A * interp.

Definition ret {A} (a : A) : Py A := fun s => (Return a, s).
Definition raise {A} (e : exn) : Py A := fun s => (Raise e, s).
Definition bind {A B} (m : Py A) (k : A -> Py B) : Py B :=
  fun s => match m s with
           | (Return a, s') => k a s'
           | (Raise e, s') => (Raise e, s')
           end.

Notation "'let*' x ':=' m 'in' k" := (bind m (fun x => k))
  (at level 10, x pattern, m at level 100, k at level 200,
   format "'[v' 'let*'  x  ':='  m  'in' '/' k ']'").

Definition log (ev : event) : Py unit :=
  fun s => (Return tt, Interp (sys_modules s) (heap s) (trace s ++ [ev])).

(** [obj.attr = v] on an instance: binds the attribute in its [__dict__]. *)
Definition setattr (obj : value) (attr : string) (v : value) : Py unit :=
  match obj with
  | VObj _ a =>
      fun s => (Return tt,
                Interp (sys_modules s)
                       (<[a := <[attr := v]> (default ∅ (heap s !! a))]> (heap s))
                       (trace s))
  | _ => raise (Exn AttributeError ("object has no attribute '" +:+ attr +:+ "'"))
  end.

(** [object.__new__]'s allocation: a fresh address with an empty [__dict__]. *)
Definition allocate (cls : string) : Py value :=
  fun s => let a := fresh (dom (heap s)) in
           (Return (VObj cls a),
            Interp (sys_modules s) (<[a := ∅]> (heap s)) (trace s)).

(** ** Classes *)

(** A function defined in a class body: [@abstractmethod] sets
    [__isabstractmethod__]; [body] is the function applied to [self] and the
    positional arguments, from binding them to its parameters (a [TypeError]
    when they do not fit) to the end of its code. *)
Record method := Method {
  is_abstract : bool;
  body : value -> list value -> Py value
}.

(** A class object as [type.__new__] (and [ABCMeta.__new__]) leave it. *)
Record pyclass := PyClass {
  c_mro : list string;           (* __mro__, the class itself first *)
  c_dict : gmap string method;   (* the class's own namespace *)
  c_is_abc : bool;               (* its metaclass is ABCMeta *)
  c_abstract : gset string       (* __abstractmethods__ *)
}.

(** [getattr(cls, name)] for a method: the first class of the MRO whose own
    namespace binds the name. *)
Fixpoint find_method (T : gmap string pyclass) (mro : list string) (name : string)
  : option (string * method) :=
  match mro with
  | [] => None
  | c :: rest =>
      match T !! c ≫= (fun K => c_dict K !! name) with
      | Some m => Some (c, m)
      | None => find_method T rest name
      end
  end.

(** [getattr(getattr(cls, name, None), "__isabstractmethod__", False)]. *)
Definition resolves_abstract (T : gmap string pyclass) (mro : list string)
  (name : string) : bool :=
  match find_method T mro name with
  | Some (_, m) => is_abstract m
  | None => false
  end.

(** The names a class body itself declares abstract. *)
Definition own_abstract (ns : gmap string method) : gset string :=
  dom (filter (fun kv => is_abstract kv.2 = true) ns).

(** The statement [class name(base): ns]. The class is registered under its
    name; with metaclass [ABCMeta] (inherited from the base) its
    [__abstractmethods__] is the abstract names of its own body together with
    the base's abstract names that still resolve to an abstract method.
    [None] when the base is unknown or the name is taken (class names
    identify class objects here, so a name is bound once). *)
Definition define_class (T : gmap string pyclass) (name base : string)
  (ns : gmap string method) : option (gmap string pyclass) :=
  match T !! name, T !! base with
  | None, Some B =>
      let mro := name :: c_mro B in
      let T0 := <[name := PyClass mro ns (c_is_abc B) ∅]> T in
      let abstracts :=
        if c_is_abc B
        then own_abstract ns
             ∪ filter (fun n => resolves_abstract T0 mro n = true) (c_abstract B)
        else ∅ in
      Some (<[name := PyClass mro ns (c_is_abc B) abstracts]> T)
  | _, _ => None
  end.

(** [object] and [abc.ABC]. *)
Definition builtins : gmap string pyclass :=
  <["ABC" := PyClass ["ABC"; "object"] ∅ true ∅]>
  (<["object" := PyClass ["object"] ∅ false ∅]> ∅).

(** Private name mangling inside a class body: [__attr] is compiled to
    [_Class__attr]. *)
Definition mangle (cls attr : string) : string := "_" +:+ cls +:+ attr.

(** ** The source: [class SimulatedDevice(ABC)] *)

Module SimulatedDevice.

Definition arity_error (meth : string) : exn :=
  Exn TypeError (meth +:+ "() got the wrong number of positional arguments").

(** [def __init__(self, report_state_function, send_telemetry_function, properties)] *)
Definition __init__ (self : value) (args : list value) : Py value :=
  match args with
  | [report_state_function; send_telemetry_function; properties] =>
      let* _ := setattr self (mangle "SimulatedDevice" "__report_state")
                        report_state_function in
      let* _ := setattr self (mangle "SimulatedDevice" "__send_telemetry")
                        send_telemetry_function in
      let* _ := setattr self (mangle "SimulatedDevice" "__properties")
                        properties in
      ret VNone
  | _ => raise (arity_error "__init__")
  end.

(** [@abstractmethod def initialize(self): pass] *)
Definition initialize (self : value) (args : list value) : Py value :=
  match args with
  | [] => ret VNone
  | _ => raise (arity_error "initialize")
  end.

(** [@abstractmethod def on_update(self, update_state, payload): pass] *)
Definition on_update (self : value) (args : list value) : Py value :=
  match args with
  | [update_state; payload] => ret VNone
  | _ => raise (arity_error "on_update")
  end.

(** [@abstractmethod def run(self): pass] *)
Definition run (self : value) (args : list value) : Py value :=
  match args with
  | [] => ret VNone
  | _ => raise (arity_error "run")
  end.

(** The class body's namespace. *)
Definition namespace : gmap string method :=
  <["__init__" := Method false __init__]>
  (<["initialize" := Method true initialize]>
  (<["on_update" := Method true on_update]>
  (<["run" := Method true run]> ∅))).

(** The three operations the contract requires. *)
Definition required : list string := ["initialize"; "on_update"; "run"].

End SimulatedDevice.

(** The class table once [simulated_device.py] has been executed. *)
Definition device_module_classes : option (gmap string pyclass) :=
  define_class builtins "SimulatedDevice" "ABC" SimulatedDevice.namespace.

(** Class tables a program can reach: the device module's, extended by
    further class statements. *)
Inductive class_table_ok : gmap string pyclass -> Prop :=
| table_initial T :
    device_module_classes = Some T -> class_table_ok T
| table_define T name base ns T' :
    class_table_ok T -> define_class T name base ns = Some T' ->
    class_table_ok T'.

(** ** The run time around the factory *)

(** Invoking a plain callable: the invocation is observable, its answer is the
    callable's own. *)
Definition invoke (ext : string -> list value -> outcome value) (f : string)
  (args : list value) : Py value :=
  let* _ := log (EvInvoke f args) in
  fun s => (ext f args, s).

(** What a program is loaded into: its class objects, what the import system
    finds for a dotted name that is not loaded yet (locating and executing
    the module, parent packages included, either raises or yields the module
    namespace), and how each plain callable answers. *)
Record pyenv := PyEnv {
  classes : gmap string pyclass;
  finder : gmap string (exn + gmap string value);
  extern : string -> list value -> outcome value
}.

(** The error of [object.__new__] for a class with abstract methods left. *)
Definition abstract_error (cls : string) : exn :=
  Exn TypeError ("Can't instantiate abstract class " +:+ cls).

Section Runtime.

Context (E : pyenv).

(** [setattr(parent_module, child, module)] at the end of a load: the
    parent package, which is the object [sys.modules] holds under its name,
    gets the submodule as an attribute. *)
Definition bind_child (parent : option string) (child name : string)
  (modules : gmap string pymodule) : gmap string pymodule :=
  match parent with
  | None => modules
  | Some pname =>
      match modules !! pname with
      | Some pm =>
          <[pname := PyModule (mod_name pm)
                       (<[child := VModule name]> (mod_dict pm))]> modules
      | None => modules
      end
  end.

(** The parent, when there is one, must be a package: a module with a
    [__path__]. *)
Definition is_package (parent : option string)
  (modules : gmap string pymodule) : bool :=
  match parent with
  | None => true
  | Some pname =>
      match modules !! pname ≫= (fun pm => mod_dict pm !! "__path__") with
      | Some _ => true
      | None => false
      end
  end.

(** The end of [_find_and_load_unlocked], once the parent package is
    loaded: a module the parent's import has loaded is returned; otherwise
    the module is located below its parent and executed, which either raises
    or yields its namespace; a loaded module is entered in [sys.modules] and
    bound in its parent. *)
Definition exec_module (parent : option string) (name child : string)
  : Py pymodule :=
  fun s =>
    match sys_modules s !! name with
    | Some m => (Return m, s)
    | None =>
        if negb (is_package parent (sys_modules s)) then
          (Raise (Exn ModuleNotFoundError
                    ("No module named '" +:+ name +:+ "'; '"
                     +:+ default "" parent +:+ "' is not a package")), s)
        else
          match finder E !! name with
          | None =>
              (Raise (Exn ModuleNotFoundError
                        ("No module named '" +:+ name +:+ "'")), s)
          | Some (inl e) => (Raise e, s)
          | Some (inr ns) =>
              let m := PyModule name ns in
              (Return m,
               Interp (bind_child parent child name (<[name := m]> (sys_modules s)))
                      (heap s) (trace s))
          end
    end.

(** [_find_and_load] on a dotted name given by its segments, last segment
    first: a name in [sys.modules] is returned as it is cached, without
    looking at its parents; otherwise the parent package is imported first
    (unless it is cached), then the module itself is loaded. *)
Fixpoint find_and_load (rsegs : list string) : Py pymodule :=
  match rsegs with
  | [] => raise (Exn ValueError "Empty module name")
  | child :: rparents =>
      let name := PyStr.join "." (rev (child :: rparents)) in
      fun s =>
        match sys_modules s !! name with
        | Some m => (Return m, s)
        | None =>
            match rparents with
            | [] => exec_module None name child s
            | _ :: _ =>
                match find_and_load rparents s with
                | (Return _, s') =>
                    exec_module (Some (PyStr.join "." (rev rparents))) name child s'
                | (Raise e, s') => (Raise e, s')
                end
            end
        end
  end.

(** The same for a name that is not in [sys.modules]. *)
Definition load_uncached (rsegs : list string) : Py pymodule :=
  match rsegs with
  | [] => raise (Exn ValueError "Empty module name")
  | child :: rparents =>
      let name := PyStr.join "." (rev (child :: rparents)) in
      match rparents with
      | [] => exec_module None name child
      | _ :: _ =>
          fun s =>
            match find_and_load rparents s with
            | (Return _, s') =>
                exec_module (Some (PyStr.join "." (rev rparents))) name child s'
            | (Raise e, s') => (Raise e, s')
            end
      end
  end.

(** [importlib.import_module(name)] with no [package] argument: a relative
    name is refused, then the empty name; then [_find_and_load] resolves the
    name: from [sys.modules] when it is there, otherwise by importing the
    parent packages and loading the module. The parents' imports are not
    calls of [import_module]: only this call is logged. *)
Definition import_module (name : string) : Py pymodule :=
  let* _ := log (EvImport name) in
  if PyStr.starts_with_dot name then
    raise (Exn TypeError
             ("the 'package' argument is required to perform a relative import for '"
              +:+ name +:+ "'"))
  else if String.eqb name "" then
    raise (Exn ValueError "Empty module name")
  else find_and_load (rev (PyStr.split "." name)).

(** [getattr(module, attr)] on a module object. *)
Definition getattr (module : pymodule) (attr : string) : Py value :=
  let* _ := log (EvGetattr (mod_name module) attr) in
  match mod_dict module !! attr with
  | Some v => ret v
  | None =>
      raise (Exn AttributeError
               ("module '" +:+ mod_name module +:+ "' has no attribute '"
                +:+ attr +:+ "'"))
  end.

(** [object.__new__]'s first test: arguments were passed although neither
    [__new__] nor [__init__] is overridden. *)
Definition surplus_arguments (init : option (string * method))
  (args : list value) : bool :=
  match init, args with
  | None, _ :: _ => true
  | _, _ => false
  end.

(** [object.__new__(cls, *args)], the [__new__] of a class that binds none:
    it refuses surplus arguments when [__init__] is not overridden either,
    then refuses a class whose [__abstractmethods__] is not empty, then
    allocates. *)
Definition object_new (cls : string) (K : pyclass) (args : list value)
  : Py value :=
  if surplus_arguments (find_method (classes E) (c_mro K) "__init__") args then
    raise (Exn TypeError (cls +:+ "() takes no arguments"))
  else if negb (bool_decide (c_abstract K = ∅)) then
    raise (abstract_error cls)
  else allocate cls.

(** [isinstance(obj, cls)] for an object of class [obj_cls]. *)
Definition is_instance (obj_cls cls : string) : bool :=
  bool_decide (obj_cls = cls)
  || match classes E !! obj_cls with
     | Some K => bool_decide (cls ∈ c_mro K)
     | None => false
     end.

(** The [__init__] step of [type.__call__] on the object [__new__] returned:
    the [__init__] of the object's class is called with the same arguments
    and must return [None]; [object.__init__] does nothing. *)
Definition run_init (cls : string) (self : value) (args : list value)
  : Py value :=
  match classes E !! cls ≫= (fun K => find_method (classes E) (c_mro K) "__init__") with
  | None => ret self
  | Some (owner, m) =>
      let* _ := log (EvMethod owner "__init__") in
      let* r := body m self args in
      match r with
      | VNone => ret self
      | _ => raise (Exn TypeError "__init__() should return None")
      end
  end.

(** [cls( *args )], that is [type.__call__] (the metaclass is [type] or
    [ABCMeta]): the [__new__] found along the MRO is called with the class
    and the arguments, [object.__new__] when no class binds one; what it
    returns is the result, after [__init__] has run on it when it is an
    instance of the class. *)
Definition instantiate (cls : string) (args : list value) : Py value :=
  match classes E !! cls with
  | None => raise (Exn SystemError ("unknown class object " +:+ cls))
  | Some K =>
      let* obj :=
        match find_method (classes E) (c_mro K) "__new__" with
        | None => object_new cls K args
        | Some (owner, m) =>
            let* _ := log (EvMethod owner "__new__") in
            body m (VClass cls) args
        end in
      match obj with
      | VObj obj_cls _ =>
          if is_instance obj_cls cls then run_init obj_cls obj args else ret obj
      | _ => ret obj
      end
  end.

(** The bound method [meth] of an instance of [cls]: the function found
    along the MRO of the class runs with [self] bound; a name no class of
    the MRO binds is an [AttributeError]. *)
Definition run_method (cls : string) (self : value) (meth : string)
  (args : list value) : Py value :=
  match classes E !! cls ≫= (fun K => find_method (classes E) (c_mro K) meth) with
  | Some (owner, m) =>
      let* _ := log (EvMethod owner meth) in
      body m self args
  | None =>
      raise (Exn AttributeError
               ("'" +:+ cls +:+ "' object has no attribute '" +:+ meth +:+ "'"))
  end.

(** [callee( *args )]: the call protocol. *)
Definition call (callee : value) (args : list value) : Py value :=
  let* _ := log (EvCall callee args) in
  match callee with
  | VClass cls => instantiate cls args
  | VFunc f => invoke (extern E) f args
  | VObj cls a =>
      match classes E !! cls
            ≫= (fun K => find_method (classes E) (c_mro K) "__call__") with
      | Some _ => run_method cls callee "__call__" args
      | None => raise (Exn TypeError "object is not callable")
      end
  | _ => raise (Exn TypeError "object is not callable")
  end.

(** [obj.meth( *args )] on an instance: an entry of the instance's own
    [__dict__] shadows the class's function and is called as it is;
    otherwise the class's function runs as a bound method. *)
Definition call_method (obj : value) (meth : string) (args : list value)
  : Py value :=
  match obj with
  | VObj cls a =>
      fun s =>
        match heap s !! a ≫= (fun d => d !! meth) with
        | Some f => call f args s
        | None => run_method cls obj meth args s
        end
  | _ =>
      raise (Exn AttributeError ("object has no attribute '" +:+ meth +:+ "'"))
  end.

(** ** The source: [SimulatorFactory.create] *)

(** [parts[-1]] as a step that can raise. *)
Definition last_item (parts : list string) : Py string :=
  match PyStr.item_last parts with
  | Some p => ret p
  | None => raise (Exn IndexError "list index out of range")
  end.

(** [@staticmethod def create(full_class_name, *args)] *)
Definition create (full_class_name : string) (args : list value) : Py value :=
  let parts := PyStr.split "." full_class_name in
  let module := PyStr.join "." (PyStr.but_last parts) in
  let* simple_class_name := last_item parts in
  let* module := import_module module in
  let* simulator_class := getattr module simple_class_name in
  call simulator_class args.

(** The source's [module] and [simple_class_name] variables as functions of
    the name. *)
Definition module_of (full_class_name : string) : string :=
  PyStr.join "." (PyStr.but_last (PyStr.split "." full_class_name)).

Definition class_of (full_class_name : string) : string :=
  default "" (PyStr.item_last (PyStr.split "." full_class_name)).

End Runtime.

(** ** The algorithm as the specification words it *)

Module Spec.

(** Split the name on the last namespace separator into (module-path,
    class-name); a name with no separator is all class-name. *)
Definition split_on_last_separator (name : string) : string * string :=
  match PyStr.cut_last "." name with
  | Some (module_path, class_name) => (module_path, class_name)
  | None => ("", name)
  end.

Section Algorithm.

Context (E : pyenv).

(** Loading a module that is not loaded yet (its parent packages first,
    where they are not loaded either). *)
Definition load_module (module_path : string) : Py pymodule :=
  if PyStr.starts_with_dot module_path then
    raise (Exn TypeError
             ("the 'package' argument is required to perform a relative import for '"
              +:+ module_path +:+ "'"))
  else if String.eqb module_path "" then
    raise (Exn ValueError "Empty module name")
  else load_uncached E (rev (PyStr.split "." module_path)).

(** Resolve module-path to a loaded module, loading it if not already
    loaded. *)
Definition resolve_module (module_path : string) : Py pymodule :=
  let* _ := log (EvImport module_path) in
  fun s =>
    match sys_modules s !! module_path with
    | Some m => (Return m, s)
    | None => load_module module_path s
    end.

(** Split; resolve; look the class-name up as an attribute of the module;
    invoke it as a constructor with the construction arguments. *)
Definition create (full_class_name : string) (construction_args : list value)
  : Py value :=
  let '(module_path, class_name) := split_on_last_separator full_class_name in
  let* module := resolve_module module_path in
  let* symbol := getattr module class_name in
  call E symbol construction_args.

End Algorithm.

End Spec.

(** [sys.modules] is keyed by absolute module names: no key is empty or
    starts with a dot. *)
Definition sys_modules_ok (s : interp) : Prop :=
  forall name, is_Some (sys_modules s !! name) ->
    name <> "" /\ PyStr.starts_with_dot name = false.

(** ** Executing a sequence of class statements *)

Record class_stmt := ClassStmt {
  cs_name : string;
  cs_base : string;
  cs_body : gmap string method
}.

Fixpoint exec_classes (T : gmap string pyclass) (stmts : list class_stmt)
  : option (gmap string pyclass) :=
  match stmts with
  | [] => Some T
  | st :: rest =>
      match define_class T (cs_name st) (cs_base st) (cs_body st) with
      | Some T' => exec_classes T' rest
      | None => None
      end
  end.

(** The class is the contract itself or a subclass in which no class below
    the contract binds the operation: walking the MRO, the contract is reached
    before any binding of [name]. *)
Fixpoint omits (T : gmap string pyclass) (mro : list string) (name : string)
  : bool :=
  match mro with
  | [] => false
  | c :: rest =>
      if String.eqb c "SimulatedDevice" then true
      else match T !! c ≫= (fun K => c_dict K !! name) with
           | Some _ => false
           | None => omits T rest name
           end
  end.

(** The class named [cls] lacks the operation in that sense. *)
Definition lacks_operation (T : gmap string pyclass) (cls name : string) : bool :=
  match T !! cls with
  | Some K => omits T (c_mro K) name
  | None => false
  end.

(** The class binds the operation to a function that is not abstract. *)
Definition implements (T : gmap string pyclass) (cls name : string) : bool :=
  match T !! cls with
  | Some K =>
      match find_method T (c_mro K) name with
      | Some (_, m) => negb (is_abstract m)
      | None => false
      end
  | None => false
  end.

(** The events a step appended to the trace. *)
Definition appended (before after : interp) (evs : list event) : Prop :=
  trace after = trace before ++ evs.

(** What holds of every reachable class table. *)
Record table_inv (T : gmap string pyclass) : Prop := TableInv {
  (* the contract is registered as the source defines it *)
  inv_contract :
    exists SD, T !! "SimulatedDevice" = Some SD
      /\ c_mro SD = ["SimulatedDevice"; "ABC"; "object"]
      /\ c_dict SD = SimulatedDevice.namespace;
  (* every class of an MRO is registered *)
  inv_closed :
    forall c K c', T !! c = Some K -> c' ∈ c_mro K -> is_Some (T !! c');
  (* a required operation bound nowhere below the contract is abstract *)
  inv_abstract :
    forall c K n, T !! c = Some K -> n ∈ SimulatedDevice.required ->
      omits T (c_mro K) n = true -> n ∈ c_abstract K /\ c_is_abc K = true;
  (* an abstract name resolves to an abstract function *)
  inv_sound :
    forall c K n, T !! c = Some K -> n ∈ c_abstract K ->
      resolves_abstract T (c_mro K) n = true
}.





Definition is_Some_bool {A} (o : option A) : bool :=
  match o with Some _ => true | None => false end.

(** ** A device package, for concrete runs *)

Module Example.

(** Plain callables answer [None]. *)
Definition ext : string -> list value -> outcome value :=
  fun _ _ => Return VNone.

(** [self._SimulatedDevice__<attr>(arg)]: the bound reference is read from
    the instance and called. *)
Definition call_bound (self : value) (attr : string) (args : list value)
  : Py value :=
  match self with
  | VObj _ a =>
      fun s =>
        match heap s !! a ≫= (fun d => d !! mangle "SimulatedDevice" attr) with
        | Some (VFunc f) =>
            (let* _ := log (EvCall (VFunc f) args) in invoke ext f args) s
        | _ => (Raise (Exn AttributeError attr), s)
        end
  | _ => raise (Exn AttributeError attr)
  end.

Definition pass_ (_ : value) (_ : list value) : Py value := ret VNone.

(** [class Thermostat(SimulatedDevice)]: reports the payload of an update
    through the bound report-state function. *)
Definition thermostat_on_update : method :=
  Method false
    (fun self args => call_bound self "__report_state" (drop 1 args)).

Definition Thermostat : class_stmt :=
  ClassStmt "Thermostat" "SimulatedDevice"
    (<["initialize" := Method false pass_]>
    (<["on_update" := thermostat_on_update]>
    (<["run" := Method false
         (fun self args => call_bound self "__send_telemetry" [VInt 21])]> ∅))).

(** [class Chatty(SimulatedDevice)]: its [on_update] calls a function of its
    own module, [other_callback(payload)]. *)
Definition Chatty : class_stmt :=
  ClassStmt "Chatty" "SimulatedDevice"
    (<["initialize" := Method false pass_]>
    (<["on_update" := Method false
         (fun self args =>
            let* _ := log (EvCall (VFunc "other_callback") (drop 1 args)) in
            invoke ext "other_callback" (drop 1 args))]>
    (<["run" := Method false pass_]> ∅))).

(** [class Partial(SimulatedDevice)]: leaves [on_update] and [run] out. *)
Definition Partial : class_stmt :=
  ClassStmt "Partial" "SimulatedDevice"
    (<["initialize" := Method false pass_]> ∅).

(** [class Faulty(SimulatedDevice)]: its [run] raises. *)
Definition Faulty : class_stmt :=
  ClassStmt "Faulty" "SimulatedDevice"
    (<["initialize" := Method false pass_]>
    (<["on_update" := Method false pass_]>
    (<["run" := Method false
         (fun _ _ => raise (Exn (UserException "SensorError") "sensor offline"))]> ∅))).

(** [class Weird(SimulatedDevice)]: implements the three operations, and
    its [__new__] returns [None]. *)
Definition Weird : class_stmt :=
  ClassStmt "Weird" "SimulatedDevice"
    (<["__new__" := Method false (fun _ _ => ret VNone)]>
    (<["initialize" := Method false pass_]>
    (<["on_update" := Method false pass_]>
    (<["run" := Method false pass_]> ∅)))).

(** [class Sneaky(SimulatedDevice)]: leaves [on_update] and [run] out, and
    its [__new__] returns [42]. *)
Definition Sneaky : class_stmt :=
  ClassStmt "Sneaky" "SimulatedDevice"
    (<["__new__" := Method false (fun _ _ => ret (VInt 42))]>
    (<["initialize" := Method false pass_]> ∅)).

(** [class Extra(SimulatedDevice)]: implements the three operations and
    declares a fourth, [calibrate], abstract. *)
Definition Extra : class_stmt :=
  ClassStmt "Extra" "SimulatedDevice"
    (<["initialize" := Method false pass_]>
    (<["on_update" := Method false pass_]>
    (<["run" := Method false pass_]>
    (<["calibrate" := Method true pass_]> ∅)))).

Definition stmts : list class_stmt :=
  [Thermostat; Chatty; Partial; Faulty; Weird; Sneaky; Extra].

Definition table : gmap string pyclass :=
  default ∅ (device_module_classes ≫= fun T => exec_classes T stmts).

(** The namespace of the module [pkg.devices]. *)
Definition devices_ns : gmap string value :=
  <["Thermostat" := VClass "Thermostat"]>
  (<["Chatty" := VClass "Chatty"]>
  (<["Partial" := VClass "Partial"]>
  (<["Faulty" := VClass "Faulty"]>
  (<["Weird" := VClass "Weird"]>
  (<["Sneaky" := VClass "Sneaky"]>
  (<["Extra" := VClass "Extra"]>
  (<["SimulatedDevice" := VClass "SimulatedDevice"]>
  (<["other_callback" := VFunc "other_callback"]>
  (<["VERSION" := VInt 3]> ∅))))))))).

(** The namespace of the package [pkg]. *)
Definition pkg_ns : gmap string value := <["__path__" := VStr "pkg"]> ∅.

(** The package [pkg] and its module [pkg.devices] load; [pkg.broken] and
    [pkg.shaky] raise while they execute, the latter an [AttributeError];
    nothing else is found. *)
Definition env : pyenv :=
  PyEnv table
        (<["pkg" := inr pkg_ns]>
         (<["pkg.devices" := inr devices_ns]>
         (<["pkg.broken" := inl (Exn (UserException "RuntimeError") "boom")]>
         (<["pkg.shaky" :=
              inl (Exn AttributeError "module 'os' has no attribute 'sensors'")]>
            ∅))))
        ext.

(** A fresh interpreter. *)
Definition start : interp := Interp ∅ ∅ [].

(** [sys.modules] once [pkg.devices] is imported: the package, with the
    submodule bound in it, and the module. *)
Definition loaded : gmap string pymodule :=
  <["pkg" := PyModule "pkg" (<["devices" := VModule "pkg.devices"]> pkg_ns)]>
  (<["pkg.devices" := PyModule "pkg.devices" devices_ns]> ∅).

(** The interpreter right after [import_module("pkg.devices")]. *)
Definition imported : interp := Interp loaded ∅ [EvImport "pkg.devices"].

Definition report_fn : value := VFunc "report_fn".
Definition telemetry_fn : value := VFunc "telemetry_fn".
Definition props : value := VDict [("min_temp", VInt 10)].

End Example.


(** ** Entry points and where an error arises *)

(** The two ways a caller enters this code: the factory, and a lifecycle
    method of a device it was given. *)
Inductive entry :=
| CallCreate (full_class_name : string) (args : list value)
| CallLifecycle (device : value) (meth : string) (args : list value).

Definition run_entry (E : pyenv) (c : entry) : Py value :=
  match c with
  | CallCreate name args => create E name args
  | CallLifecycle device meth args => call_method E device meth args
  end.

(** [raised_in E c s e s']: entered at [c] in state [s], error [e] arises in
    one of the steps, which leaves the state [s']: in the module resolution,
    in the attribute lookup, in the call of the looked-up symbol, or in the
    body of a device's method. *)
Inductive raised_in (E : pyenv) : entry -> interp -> exn -> interp -> Prop :=
| raised_in_resolution name args s e s' :
    import_module E (module_of name) s = (Raise e, s') ->
    raised_in E (CallCreate name args) s e s'
| raised_in_lookup name args s m s1 e s' :
    import_module E (module_of name) s = (Return m, s1) ->
    getattr m (class_of name) s1 = (Raise e, s') ->
    raised_in E (CallCreate name args) s e s'
| raised_in_construction name args s m s1 c s2 e s' :
    import_module E (module_of name) s = (Return m, s1) ->
    getattr m (class_of name) s1 = (Return c, s2) ->
    call E c args s2 = (Raise e, s') ->
    raised_in E (CallCreate name args) s e s'
| raised_in_lifecycle cls a meth args s owner m e s' :
    heap s !! a ≫= (fun d => d !! meth) = None ->
    classes E !! cls ≫= (fun K => find_method (classes E) (c_mro K) meth)
      = Some (owner, m) ->
    body m (VObj cls a) args (log (EvMethod owner meth) s).2 = (Raise e, s') ->
    raised_in E (CallLifecycle (VObj cls a) meth args) s e s'.

(** ** Further notions read off the code *)

(** [not cls.__abstractmethods__]: the class can be instantiated. *)
Definition is_concrete (T : gmap string pyclass) (cls : string) : bool :=
  match T !! cls with
  | Some K => bool_decide (c_abstract K = ∅)
  | None => false
  end.

(** No class of the MRO binds [__new__]: [object.__new__] constructs. *)
Definition default_new (T : gmap string pyclass) (cls : string) : bool :=
  match T !! cls with
  | Some K =>
      match find_method T (c_mro K) "__new__" with
      | None => true
      | Some _ => false
      end
  | None => false
  end.

(** The class has no abstract name besides the contract's three. *)
Definition abstract_within (T : gmap string pyclass) (cls : string) : bool :=
  match T !! cls with
  | Some K =>
      forallb (fun n => bool_decide (n ∈ SimulatedDevice.required))
              (elements (c_abstract K))
  | None => false
  end.

(** The constructor accepts the arguments: the [__init__] the class binds or
    inherits returns normally on them; without any [__init__], only the empty
    argument list is accepted. *)
Definition init_accepts (E : pyenv) (cls : string) (args : list value) : Prop :=
  match classes E !! cls
        ≫= (fun K => find_method (classes E) (c_mro K) "__init__") with
  | Some (_, mi) =>
      forall a s, exists s', body mi (VObj cls a) args s = (Return VNone, s')
  | None => args = []
  end.

(** C1 as it is claimed, at one input: the name resolves to a class that
    implements the three operations and whose constructor accepts the
    arguments, so [create] returns an instance of that class. *)
Definition create_instance_claim (E : pyenv)
  (module_path class_name cls : string) (args : list value) (s : interp)
  : Prop :=
  class_table_ok (classes E) ->
  PyStr.free_of "." class_name = true ->
  (exists m s1, import_module E module_path s = (Return m, s1)
                /\ mod_dict m !! class_name = Some (VClass cls)) ->
  (forall op, op ∈ SimulatedDevice.required ->
     implements (classes E) cls op = true) ->
  init_accepts E cls args ->
  exists a s2,
    create E (module_path +:+ "." +:+ class_name) args s
    = (Return (VObj cls a), s2).

(** C2 as it is claimed: calling the contract, or any subclass that lacks one
    of the three operations, fails. *)
Definition abstract_instantiation_claim : Prop :=
  forall (E : pyenv) (cls : string) (args : list value) (s : interp),
    class_table_ok (classes E) ->
    (cls = "SimulatedDevice"
     \/ exists op, (op ∈ SimulatedDevice.required)
                  /\ lacks_operation (classes E) cls op = true) ->
    exists e s', call E (VClass cls) args s = (Raise e, s').

(** C4 as it is claimed: the error of a failed lookup differs in kind from
    the error of any import that fails. *)
Definition lookup_error_distinct_claim : Prop :=
  forall (E : pyenv) (name : string) (args : list value) (s s1 s' : interp)
         (m : pymodule) (e : exn) (p : string) (s0 s0' : interp) (e0 : exn),
    import_module E (module_of name) s = (Return m, s1) ->
    mod_dict m !! class_of name = None ->
    create E name args s = (Raise e, s') ->
    import_module E p s0 = (Raise e0, s0') ->
    exn_class e0 <> exn_class e.

(** The errors the import system raises itself, as opposed to those a
    module's own code raises while it is loaded. *)
Definition import_system_error (e : exn) : Prop :=
  exn_class e = ModuleNotFoundError \/ exn_class e = ValueError
  \/ exn_class e = TypeError.

(** Values with no call protocol: [None], numbers, strings, dictionaries. *)
Definition is_plain_data (v : value) : bool :=
  match v with
  | VNone | VInt _ | VStr _ | VDict _ => true
  | VFunc _ | VClass _ | VObj _ _ | VModule _ => false
  end.

(** The instance [__dict__] the contract's constructor leaves on a new
    object. *)
Definition bound_dict (r t p : value) : gmap string value :=
  <["_SimulatedDevice__properties" := p]>
  (<["_SimulatedDevice__send_telemetry" := t]>
  (<["_SimulatedDevice__report_state" := r]> ∅)).

(** The compiler's private-name mangling in full, for an identifier used
    inside the body of class [cls]: only identifiers that start with two
    underscores, do not end with two and contain no dot are mangled; leading
    underscores of the class name are dropped, and a class name made of
    underscores only mangles nothing. *)
Fixpoint strip_underscores (s : string) : string :=
  match s with
  | String c rest => if Ascii.eqb c "_" then strip_underscores rest else s
  | EmptyString => EmptyString
  end.

Definition starts_with2 (s : string) : bool :=
  match s with
  | String a (String b _) => Ascii.eqb a "_" && Ascii.eqb b "_"
  | _ => false
  end.

Fixpoint ends_with2 (s : string) : bool :=
  match s with
  | String a (String b EmptyString) => Ascii.eqb a "_" && Ascii.eqb b "_"
  | String _ rest => ends_with2 rest
  | EmptyString => false
  end.

Definition mangle_private (cls ident : string) : string :=
  if starts_with2 ident && negb (ends_with2 ident) && PyStr.free_of "." ident
  then match strip_underscores cls with
       | EmptyString => ident
       | stripped => "_" +:+ stripped +:+ ident
       end
  else ident.

(** The identifiers the contract's constructor assigns to, as the source
    spells them. *)
Definition private_attrs : list string :=
  ["__report_state"; "__send_telemetry"; "__properties"].

(** The last character of a string. *)
Fixpoint last_char (s : string) : option ascii :=
  match s with
  | EmptyString => None
  | String c EmptyString => Some c
  | String _ rest => last_char rest
  end.

(** * Facts *)

(** ** Strings *)

Module PyStrFacts.

Import PyStr.

Lemma split_nonempty sep s : split sep s <> [].
Proof.
  destruct s as [|c rest]; simpl; [discriminate|].
  destruct (Ascii.eqb c sep); [discriminate|].
  destruct (split sep rest); discriminate.
Qed.

Lemma item_last_is_Some {A} (l : list A) : l <> [] -> is_Some (item_last l).
Proof.
  induction l as [|x [|y l] IH]; intros Hne; [congruence|by eexists|].
  apply IH. discriminate.
Qed.

Lemma split_free sep s : free_of sep s = true -> split sep s = [s].
Proof.
  induction s as [|c rest IH]; simpl; [done|].
  destruct (Ascii.eqb c sep); simpl; [discriminate|].
  intros H. by rewrite (IH H).
Qed.

Lemma cut_last_free sep s : free_of sep s = true -> cut_last sep s = None.
Proof.
  induction s as [|c rest IH]; simpl; [done|].
  destruct (Ascii.eqb c sep); simpl; [discriminate|].
  intros H. by rewrite (IH H).
Qed.

Lemma cut_last_None_free sep s : cut_last sep s = None -> free_of sep s = true.
Proof.
  induction s as [|c rest IH]; simpl; [done|].
  destruct (cut_last sep rest) as [[b a]|]; [discriminate|].
  destruct (Ascii.eqb c sep); [discriminate|]. intros _. by rewrite IH.
Qed.

Lemma split_one_free sep s p : split sep s = [p] -> free_of sep s = true.
Proof.
  revert p. induction s as [|c rest IH]; intros p; simpl; [done|].
  destruct (Ascii.eqb c sep); simpl.
  - intros H. injection H as _ H. by destruct (split_nonempty sep rest).
  - destruct (split sep rest) as [|h [|h' t]] eqn:E; intros H.
    + by destruct (split_nonempty sep rest).
    + by apply (IH h).
    + discriminate.
Qed.

Lemma but_last_cons {A} (x : A) l : l <> [] -> but_last (x :: l) = x :: but_last l.
Proof. by destruct l. Qed.

Lemma item_last_cons {A} (x : A) l : l <> [] -> item_last (x :: l) = item_last l.
Proof. by destruct l. Qed.

Lemma join_String sep a p l : join sep (String a p :: l) = String a (join sep (p :: l)).
Proof. by destruct l. Qed.

(** The source's three lines agree with a cut at the last separator. *)
Lemma split_cut_last (c : ascii) (s : string) :
  (join (String c EmptyString) (but_last (split c s)), item_last (split c s))
  = match cut_last c s with
    | Some (before, after) => (before, Some after)
    | None => (EmptyString, Some s)
    end.
Proof.
  induction s as [|a rest IH]; simpl; [done|].
  destruct (cut_last c rest) as [[before after]|] eqn:Hcut.
  - (* a separator occurs further right *)
    destruct (split c rest) as [|hd [|hd' tl]] eqn:Hsp.
    + by destruct (split_nonempty c rest).
    + rewrite (cut_last_free c rest (split_one_free _ _ _ Hsp)) in Hcut.
      discriminate.
    + pose proof (f_equal fst IH) as IH1. pose proof (f_equal snd IH) as IH2.
      cbn [fst snd] in IH1, IH2. rewrite <- IH1.
      destruct (Ascii.eqb_spec a c) as [->|Hac].
      * rewrite (but_last_cons ""), (item_last_cons "") by discriminate.
        by rewrite IH2, (but_last_cons hd) by discriminate.
      * rewrite (but_last_cons (String a hd)), (item_last_cons (String a hd))
          by discriminate.
        rewrite (but_last_cons hd), (item_last_cons hd) in * by discriminate.
        by rewrite join_String, IH2.
  - (* no separator in the rest *)
    pose proof (cut_last_None_free _ _ Hcut) as Hfree.
    rewrite (split_free _ _ Hfree).
    destruct (Ascii.eqb a c); reflexivity.
Qed.

Lemma free_of_app sep a b :
  free_of sep (a +:+ b) = free_of sep a && free_of sep b.
Proof.
  induction a as [|c a IH]; simpl; [done|].
  rewrite IH. by rewrite andb_assoc.
Qed.

(** A name [before.after] whose last segment has no separator is cut exactly
    there. *)
Lemma cut_last_app (c : ascii) (before after : string) :
  free_of c after = true ->
  cut_last c (before +:+ String c after) = Some (before, after).
Proof.
  intros Hfree. induction before as [|a before IH]; simpl.
  - rewrite (cut_last_free _ _ Hfree). by rewrite Ascii.eqb_refl.
  - by rewrite IH.
Qed.

(** [".".join(s.split("."))] is [s]. *)
Lemma join_split (c : ascii) (s : string) :
  join (String c EmptyString) (split c s) = s.
Proof.
  induction s as [|a rest IH]; simpl; [done|].
  destruct (Ascii.eqb_spec a c) as [->|Hne].
  - destruct (split c rest) as [|hd tl] eqn:Hsp;
      [by destruct (split_nonempty c rest)|].
    change (join (String c "") ("" :: hd :: tl))
      with (String c (join (String c "") (hd :: tl))).
    by rewrite IH.
  - destruct (split c rest) as [|hd tl] eqn:Hsp;
      [by destruct (split_nonempty c rest)|].
    by rewrite join_String, IH.
Qed.

Lemma append_assoc (a b c : string) : (a +:+ b) +:+ c = a +:+ (b +:+ c).
Proof.
  induction a as [|x a IH]; [done|].
  change (String x ((a +:+ b) +:+ c) = String x (a +:+ (b +:+ c))).
  by rewrite IH.
Qed.

Lemma append_nil_r (a : string) : a +:+ "" = a.
Proof.
  induction a as [|x a IH]; [done|].
  change (String x (a +:+ "") = String x a). by rewrite IH.
Qed.

(** Joining one more segment appends a separator and the segment. *)
Lemma join_snoc (sep : string) (l : list string) (x : string) :
  l <> [] -> join sep (l ++ [x]) = join sep l +:+ sep +:+ x.
Proof.
  induction l as [|p [|q r] IH]; intros Hne; [done|done|].
  change (join sep ((p :: q :: r) ++ [x]))
    with (p +:+ sep +:+ join sep ((q :: r) ++ [x])).
  rewrite IH by done.
  change (join sep (p :: q :: r)) with (p +:+ sep +:+ join sep (q :: r)).
  by rewrite !append_assoc.
Qed.

(** A dotted name differs from the name of its parent package. *)
Lemma child_name_ne_parent (child : string) (rparents : list string) :
  rparents <> [] ->
  join "." (rev rparents) <> join "." (rev (child :: rparents)).
Proof.
  intros Hne Heq. simpl in Heq. rewrite join_snoc in Heq.
  - rewrite <- (append_nil_r (join "." (rev rparents))) in Heq at 1.
    apply String.app_inj in Heq. discriminate.
  - intros Hrev. apply (f_equal (@rev string)) in Hrev.
    by rewrite rev_involutive in Hrev.
Qed.

End PyStrFacts.

(** ** The factory, step by step *)

Section FactoryFacts.

Context (E : pyenv).

Implicit Types (name : string) (args : list value) (s : interp).

Lemma last_item_split name :
  PyStr.item_last (PyStr.split "." name) = Some (class_of name).
Proof.
  unfold class_of.
  destruct (PyStrFacts.item_last_is_Some (PyStr.split "." name)
              (PyStrFacts.split_nonempty _ _)) as [p ->].
  reflexivity.
Qed.

(** [parts[-1]] never raises: the three statements after the split are an
    import, a lookup and a call. *)
Lemma create_steps name args :
  create E name args =
  (let* module := import_module E (module_of name) in
   let* simulator_class := getattr module (class_of name) in
   call E simulator_class args).
Proof.
  unfold create, last_item. rewrite last_item_split. reflexivity.
Qed.

Lemma split_agrees name :
  (module_of name, class_of name) = Spec.split_on_last_separator name.
Proof.
  unfold module_of, class_of, Spec.split_on_last_separator.
  pose proof (PyStrFacts.split_cut_last "." name) as H.
  destruct (PyStr.cut_last "." name) as [[before after]|];
    injection H as -> ->; reflexivity.
Qed.

(** A dotted name [module_path.class_name] whose last segment has no dot. *)
Lemma split_dotted module_path class_name :
  PyStr.free_of "." class_name = true ->
  module_of (module_path +:+ "." +:+ class_name) = module_path
  /\ class_of (module_path +:+ "." +:+ class_name) = class_name.
Proof.
  intros Hfree.
  pose proof (split_agrees (module_path +:+ "." +:+ class_name)) as H.
  unfold Spec.split_on_last_separator in H.
  change ("." +:+ class_name) with (String "." class_name) in *.
  rewrite (PyStrFacts.cut_last_app _ _ _ Hfree) in H.
  by injection H as -> ->.
Qed.

Lemma split_undotted name :
  PyStr.free_of "." name = true -> module_of name = "" /\ class_of name = name.
Proof.
  intros Hfree. pose proof (split_agrees name) as H.
  unfold Spec.split_on_last_separator in H.
  rewrite (PyStrFacts.cut_last_free _ _ Hfree) in H.
  by injection H as -> ->.
Qed.

(** Loading changes [sys.modules] only. *)
Lemma exec_module_frame parent name child s r s' :
  exec_module E parent name child s = (r, s') ->
  heap s' = heap s /\ trace s' = trace s.
Proof.
  unfold exec_module. destruct (sys_modules s !! name); [by intros [= _ <-]|].
  destruct (negb _); [by intros [= _ <-]|].
  destruct (finder E !! name) as [[e0|ns]|]; by intros [= _ <-].
Qed.

Lemma find_and_load_frame rsegs s r s' :
  find_and_load E rsegs s = (r, s') ->
  heap s' = heap s /\ trace s' = trace s.
Proof.
  revert s r s'. induction rsegs as [|child rparents IH]; intros s r s'.
  - by intros [= _ <-].
  - cbn [find_and_load].
    destruct (sys_modules s !! _); [by intros [= _ <-]|].
    destruct rparents as [|p rp]; [apply exec_module_frame|].
    destruct (find_and_load E (p :: rp) s) as [[pm|e] s1] eqn:Hparent.
    + intros Hexec. destruct (IH _ _ _ Hparent) as [<- <-].
      by apply (exec_module_frame _ _ _ _ _ _ Hexec).
    + intros [= _ <-]. by apply (IH _ _ _ Hparent).
Qed.

(** A loaded module is the one [sys.modules] holds under its name. *)
Lemma exec_module_returns parent name child s m s' :
  (forall pname, parent = Some pname -> pname <> name) ->
  exec_module E parent name child s = (Return m, s') ->
  sys_modules s' !! name = Some m.
Proof.
  intros Hparent. unfold exec_module.
  destruct (sys_modules s !! name) eqn:Hcached; [by intros [= <- <-]|].
  destruct (negb _); [discriminate|].
  destruct (finder E !! name) as [[e0|ns]|]; try discriminate.
  intros [= <- <-]. simpl. unfold bind_child.
  destruct parent as [pname|]; [|by rewrite lookup_insert_eq].
  destruct (<[name:=_]> (sys_modules s) !! pname);
    [|by rewrite lookup_insert_eq].
  rewrite lookup_insert_ne by (by apply Hparent).
  by rewrite lookup_insert_eq.
Qed.

Lemma find_and_load_returns rsegs s m s' :
  find_and_load E rsegs s = (Return m, s') ->
  sys_modules s' !! PyStr.join "." (rev rsegs) = Some m.
Proof.
  destruct rsegs as [|child rparents]; [discriminate|]. cbn [find_and_load].
  destruct (sys_modules s !! _) eqn:Hcached; [by intros [= <- <-]|].
  destruct rparents as [|p rp].
  - apply exec_module_returns. discriminate.
  - destruct (find_and_load E (p :: rp) s) as [[pm|e] s1]; [|discriminate].
    apply exec_module_returns. intros pname [= <-].
    exact (PyStrFacts.child_name_ne_parent child (p :: rp) ltac:(done)).
Qed.

(** An import fails with an error of the import system's own, or with the
    error some module raised while it was executed. *)
Lemma exec_module_raises parent name child s e s' :
  exec_module E parent name child s = (Raise e, s') ->
  import_system_error e \/ exists q, finder E !! q = Some (inl e).
Proof.
  unfold exec_module. destruct (sys_modules s !! name); [discriminate|].
  destruct (negb _); [intros [= <- _]; by left; left|].
  destruct (finder E !! name) as [[e0|ns]|] eqn:Hfind; try discriminate.
  - intros [= <- _]. right. by exists name.
  - intros [= <- _]. by left; left.
Qed.

Lemma find_and_load_raises rsegs s e s' :
  find_and_load E rsegs s = (Raise e, s') ->
  import_system_error e \/ exists q, finder E !! q = Some (inl e).
Proof.
  revert s e s'. induction rsegs as [|child rparents IH]; intros s e s'.
  - intros [= <- _]. by left; right; left.
  - cbn [find_and_load]. destruct (sys_modules s !! _); [discriminate|].
    destruct rparents as [|p rp]; [apply exec_module_raises|].
    destruct (find_and_load E (p :: rp) s) as [[pm|e1] s1] eqn:Hparent.
    + apply exec_module_raises.
    + intros [= <- _]. by apply (IH _ _ _ Hparent).
Qed.

(** The segments of a name, reversed, spell the name again. *)
Lemma segments_name p : PyStr.join "." (rev (rev (PyStr.split "." p))) = p.
Proof. rewrite rev_involutive. apply PyStrFacts.join_split. Qed.

(** [_find_and_load] on the segments of a name: the cache, else a load. *)
Lemma find_and_load_name p s :
  find_and_load E (rev (PyStr.split "." p)) s
  = match sys_modules s !! p with
    | Some m => (Return m, s)
    | None => load_uncached E (rev (PyStr.split "." p)) s
    end.
Proof.
  pose proof (segments_name p) as Hname.
  destruct (rev (PyStr.split "." p)) as [|child rparents] eqn:Hsegs.
  - apply (f_equal (@rev string)) in Hsegs. rewrite rev_involutive in Hsegs.
    by destruct (PyStrFacts.split_nonempty "." p).
  - cbn [find_and_load load_uncached]. rewrite Hname.
    destruct (sys_modules s !! p); [done|]. by destruct rparents.
Qed.

(** The import step logs once and leaves the heap alone. *)
Lemma import_module_frame p s r s' :
  import_module E p s = (r, s') ->
  heap s' = heap s /\ trace s' = trace s ++ [EvImport p].
Proof.
  unfold import_module, bind, log, raise. simpl.
  destruct (PyStr.starts_with_dot p); [by intros [= _ <-]|].
  destruct (String.eqb p ""); [by intros [= _ <-]|].
  intros Hload. by destruct (find_and_load_frame _ _ _ _ Hload) as [-> ->].
Qed.

(** When it returns, the module is loaded, the heap is untouched and the log
    grew by the one import event. *)
Lemma import_module_returns p s m s' :
  import_module E p s = (Return m, s') ->
  sys_modules s' !! p = Some m /\ heap s' = heap s
  /\ trace s' = trace s ++ [EvImport p]
  /\ p <> "" /\ PyStr.starts_with_dot p = false.
Proof.
  intros Himp. destruct (import_module_frame _ _ _ _ Himp) as [Hheap Htrace].
  revert Himp. unfold import_module, bind, log, raise. simpl.
  destruct (PyStr.starts_with_dot p); [discriminate|].
  destruct (String.eqb_spec p ""); [discriminate|].
  intros Hload. apply find_and_load_returns in Hload.
  by rewrite segments_name in Hload.
Qed.

(** When it raises, the error is the import system's own or one a module
    raised while it was executed. *)
Lemma import_module_raises p s e s' :
  import_module E p s = (Raise e, s') ->
  import_system_error e \/ exists q, finder E !! q = Some (inl e).
Proof.
  unfold import_module, bind, log, raise. simpl.
  destruct (PyStr.starts_with_dot p); [intros [= <- _]; by left; right; right|].
  destruct (String.eqb p ""); [intros [= <- _]; by left; right; left|].
  apply find_and_load_raises.
Qed.

(** A module already in [sys.modules] is returned without loading. *)
Lemma import_module_cached p s m :
  sys_modules s !! p = Some m -> p <> "" -> PyStr.starts_with_dot p = false ->
  import_module E p s
  = (Return m, Interp (sys_modules s) (heap s) (trace s ++ [EvImport p])).
Proof.
  intros Hm Hne Hdot. unfold import_module, bind, log. simpl. rewrite Hdot.
  destruct (String.eqb_spec p ""); [done|].
  rewrite find_and_load_name. simpl. by rewrite Hm.
Qed.

Lemma import_is_resolve p s :
  sys_modules_ok s -> import_module E p s = Spec.resolve_module E p s.
Proof.
  intros Hok. unfold import_module, Spec.resolve_module, Spec.load_module.
  unfold bind, log, raise. simpl.
  destruct (sys_modules s !! p) as [m|] eqn:Hm.
  - destruct (Hok p) as [Hne Hdot]; [rewrite Hm; by eexists|].
    rewrite Hdot. destruct (String.eqb_spec p ""); [done|].
    rewrite find_and_load_name. simpl. by rewrite Hm.
  - destruct (PyStr.starts_with_dot p); [done|].
    destruct (String.eqb p ""); [done|].
    rewrite find_and_load_name. simpl. by rewrite Hm.
Qed.

(** Once the module is resolved and binds the class-name, the rest of
    [create] is the call of the bound value. *)
Lemma create_found name args s s1 m v :
  import_module E (module_of name) s = (Return m, s1) ->
  mod_dict m !! class_of name = Some v ->
  create E name args s
  = call E v args
      (Interp (sys_modules s1) (heap s1)
         (trace s1 ++ [EvGetattr (mod_name m) (class_of name)])).
Proof.
  intros Himp Hattr. rewrite create_steps. unfold bind at 1. rewrite Himp.
  unfold bind at 1. unfold getattr, bind, log, ret. simpl.
  by rewrite Hattr.
Qed.

End FactoryFacts.

(** ** Claims about the factory *)

(** C3. [SimulatorFactory.create] is the specification's algorithm: the
    name is cut at its last separator into module-path and class-name, the
    module-path is resolved to a loaded module (the one in [sys.modules], or a
    newly loaded one), the class-name is looked up as an attribute of that
    module, and the symbol found is invoked with the forwarded arguments, in
    that order. The source's [split]/[join]/[[-1]] lines are the cut at the
    last separator, and its [import_module] is the cache-then-load
    resolution, in every interpreter state whose [sys.modules] is keyed by
    absolute module names. *)
Theorem create_follows_algorithm (E : pyenv) (name : string)
  (args : list value) (s : interp) :
  sys_modules_ok s ->
  create E name args s = Spec.create E name args s.
Proof.
  intros Hok. rewrite create_steps. unfold Spec.create.
  rewrite <- split_agrees. unfold bind.
  by rewrite (import_is_resolve E _ s Hok).
Qed.

Lemma create_follows_algorithm_witness :
  sys_modules_ok Example.start
  /\ create Example.env "pkg.devices.Thermostat"
       [Example.report_fn; Example.telemetry_fn; Example.props] Example.start
     = Spec.create Example.env "pkg.devices.Thermostat"
         [Example.report_fn; Example.telemetry_fn; Example.props] Example.start.
Proof.
  assert (sys_modules_ok Example.start) as Hok.
  { intros name [m Hm]. vm_compute in Hm. discriminate. }
  split; [exact Hok|].
  exact (create_follows_algorithm Example.env "pkg.devices.Thermostat"
           [Example.report_fn; Example.telemetry_fn; Example.props]
           Example.start Hok).
Defined.

(** C4, as claimed, fails in one respect: the lookup error is not distinct
    in kind from every resolution error. [pkg.shaky] raises an
    [AttributeError] of its own while it is loaded; [create] lets it through
    as it is, so a module that cannot be loaded and a class that is missing
    can both surface as [AttributeError]. *)
Lemma lookup_error_distinct_counterexample : ~ lookup_error_distinct_claim.
Proof.
  intros Hclaim.
  pose (missing := create Example.env "pkg.devices.NoSuchDevice" [] Example.start).
  pose (shaky := import_module Example.env "pkg.shaky" Example.start).
  apply (Hclaim Example.env "pkg.devices.NoSuchDevice" [] Example.start
           Example.imported missing.2
           (PyModule "pkg.devices" Example.devices_ns)
           (Exn AttributeError
              "module 'pkg.devices' has no attribute 'NoSuchDevice'")
           "pkg.shaky" Example.start shaky.2
           (Exn AttributeError "module 'os' has no attribute 'sensors'")).
  - vm_compute. reflexivity.
  - vm_compute. reflexivity.
  - vm_compute. reflexivity.
  - vm_compute. reflexivity.
  - reflexivity.
Qed.

(** C4, amended. When the module of the name loads but its namespace has no
    attribute called like the final segment, [create] raises the
    [AttributeError] of [getattr]: a lookup error. It arises after the
    resolution succeeded and nothing is called. Its class differs from that
    of every error the import system raises itself for a module it cannot
    load ([ModuleNotFoundError], [ValueError], [TypeError]); only an error
    that a module's own code raised while it was loaded, which the import
    passes on unchanged, can be of the same class. *)
Theorem create_missing_class (E : pyenv) (name : string) (args : list value)
  (s s1 : interp) (m : pymodule) :
  import_module E (module_of name) s = (Return m, s1) ->
  mod_dict m !! class_of name = None ->
  exists e,
    create E name args s
    = (Raise e, Interp (sys_modules s1) (heap s1)
                  (trace s1 ++ [EvGetattr (mod_name m) (class_of name)]))
    /\ exn_class e = AttributeError
    /\ forall p s0 e0 s0',
         import_module E p s0 = (Raise e0, s0') ->
         (forall q, finder E !! q <> Some (inl e0)) ->
         import_system_error e0 /\ exn_class e0 <> exn_class e.
Proof.
  intros Himp Hattr. eexists. split; [|split].
  - rewrite create_steps. unfold bind at 1. rewrite Himp.
    unfold bind, getattr, log, raise. simpl. rewrite Hattr. reflexivity.
  - reflexivity.
  - intros p s0 e0 s0' Hfail Hown.
    destruct (import_module_raises E _ _ _ _ Hfail) as [Hsys|[q Hq]];
      [|by destruct (Hown q)].
    split; [exact Hsys|]. simpl.
    destruct Hsys as [H|[H|H]]; rewrite H; discriminate.
Qed.

Lemma create_missing_class_witness :
  exists e,
    create Example.env "pkg.devices.NoSuchDevice" [] Example.start
    = (Raise e,
       Interp Example.loaded ∅
         ([EvImport "pkg.devices"]
          ++ [EvGetattr "pkg.devices" (class_of "pkg.devices.NoSuchDevice")]))
    /\ exn_class e = AttributeError
    /\ forall p s0 e0 s0',
         import_module Example.env p s0 = (Raise e0, s0') ->
         (forall q, finder Example.env !! q <> Some (inl e0)) ->
         import_system_error e0 /\ exn_class e0 <> exn_class e.
Proof.
  refine (create_missing_class Example.env "pkg.devices.NoSuchDevice" []
            Example.start Example.imported
            (PyModule "pkg.devices" Example.devices_ns) _ _).
  - vm_compute. reflexivity.
  - vm_compute. reflexivity.
Defined.

(** C5. When the import of the name's module segment raises (the module or
    one of its parent packages is not found, or fails while loading),
    [create] raises that same error with the state the import left, and
    nothing was constructed: the heap is as before and the only step taken
    is the import (no attribute lookup, no call). Parent packages the import
    had loaded before it failed stay in [sys.modules]. *)
Theorem create_unresolved_module (E : pyenv) (name : string)
  (args : list value) (s s' : interp) (e : exn) :
  import_module E (module_of name) s = (Raise e, s') ->
  create E name args s = (Raise e, s')
  /\ heap s' = heap s
  /\ appended s s' [EvImport (module_of name)].
Proof.
  intros Himp. split.
  - rewrite create_steps. unfold bind. by rewrite Himp.
  - by apply (import_module_frame E _ _ _ _ Himp).
Qed.

Lemma create_unresolved_module_witness :
  import_module Example.env (module_of "pkg.nope.Thermostat") Example.start
  = (Raise (Exn ModuleNotFoundError "No module named 'pkg.nope'"),
     Interp (<["pkg" := PyModule "pkg" Example.pkg_ns]> ∅) ∅
       [EvImport "pkg.nope"])
  /\ create Example.env "pkg.nope.Thermostat" [Example.report_fn] Example.start
     = (Raise (Exn ModuleNotFoundError "No module named 'pkg.nope'"),
        Interp (<["pkg" := PyModule "pkg" Example.pkg_ns]> ∅) ∅
          [EvImport "pkg.nope"]).
Proof.
  assert (import_module Example.env (module_of "pkg.nope.Thermostat")
            Example.start
          = (Raise (Exn ModuleNotFoundError "No module named 'pkg.nope'"),
             Interp (<["pkg" := PyModule "pkg" Example.pkg_ns]> ∅) ∅
               [EvImport "pkg.nope"])) as Himp.
  { vm_compute. reflexivity. }
  split; [exact Himp|].
  exact (proj1 (create_unresolved_module Example.env "pkg.nope.Thermostat"
                  [Example.report_fn] Example.start _ _ Himp)).
Defined.

(** C9. A name with no separator, the empty name included, gives the empty
    module path; [import_module] refuses the empty name with
    [ValueError("Empty module name")], so [create] fails in the resolution
    step: the import is the only step taken, no attribute is looked up and
    nothing is called. *)
Theorem create_without_separator (E : pyenv) (name : string)
  (args : list value) (s : interp) :
  PyStr.free_of "." name = true ->
  module_of name = ""
  /\ create E name args s
     = (Raise (Exn ValueError "Empty module name"),
        Interp (sys_modules s) (heap s) (trace s ++ [EvImport ""]))
  /\ raised_in E (CallCreate name args) s (Exn ValueError "Empty module name")
       (Interp (sys_modules s) (heap s) (trace s ++ [EvImport ""])).
Proof.
  intros Hfree. destruct (split_undotted name Hfree) as [Hmod _].
  assert (import_module E (module_of name) s
          = (Raise (Exn ValueError "Empty module name"),
             Interp (sys_modules s) (heap s) (trace s ++ [EvImport ""]))) as Himp.
  { rewrite Hmod. reflexivity. }
  split; [exact Hmod|]. split.
  - rewrite create_steps. unfold bind. by rewrite Himp.
  - by apply raised_in_resolution.
Qed.

Lemma create_without_separator_witness :
  PyStr.free_of "." "Thermostat" = true
  /\ create Example.env "Thermostat" [] Example.start
     = (Raise (Exn ValueError "Empty module name"),
        Interp ∅ ∅ ([] ++ [EvImport ""])).
Proof.
  split; [reflexivity|].
  exact (proj1 (proj2 (create_without_separator Example.env "Thermostat" []
                         Example.start eq_refl))).
Defined.

(** C10. [create] checks nothing about the symbol it finds: whatever value
    the module binds to the class-name (a class, a subclass of
    [SimulatedDevice] or not, a function, a number) is called with the
    forwarded arguments right after the lookup, and the outcome of that call
    is the outcome of [create]. *)
Theorem create_calls_what_it_finds (E : pyenv) (name : string)
  (args : list value) (s s1 : interp) (m : pymodule) (v : value) :
  import_module E (module_of name) s = (Return m, s1) ->
  mod_dict m !! class_of name = Some v ->
  create E name args s
  = call E v args
      (Interp (sys_modules s1) (heap s1)
         (trace s1 ++ [EvGetattr (mod_name m) (class_of name)])).
Proof.
  intros Himp Hattr. by apply create_found.
Qed.

Lemma create_calls_what_it_finds_witness :
  create Example.env "pkg.devices.VERSION" [VInt 1] Example.start
  = call Example.env (VInt 3) [VInt 1]
      (Interp Example.loaded ∅
         ([EvImport "pkg.devices"]
            ++ [EvGetattr "pkg.devices" (class_of "pkg.devices.VERSION")])).
Proof.
  refine (create_calls_what_it_finds Example.env "pkg.devices.VERSION" [VInt 1]
            Example.start
            (Interp Example.loaded
               ∅ [EvImport "pkg.devices"])
            (PyModule "pkg.devices" Example.devices_ns) (VInt 3) _ _).
  - vm_compute. reflexivity.
  - vm_compute. reflexivity.
Defined.

(** C6. Whatever error arises in a step of [create] (resolution, lookup or
    the call of the looked-up symbol) or in the body of a device's lifecycle
    method is the outcome the caller gets, with the state the failing step
    left: the same exception, not caught, translated, retried or replaced. *)
Theorem errors_propagate_unmodified (E : pyenv) (c : entry) (s s' : interp)
  (e : exn) :
  raised_in E c s e s' -> run_entry E c s = (Raise e, s').
Proof.
  intros Hraised. inversion Hraised as
    [name args s0 e0 s0' Himp
    |name args s0 m s1 e0 s0' Himp Hget
    |name args s0 m s1 v s2 e0 s0' Himp Hget Hcall
    |cls a meth args s0 owner mth e0 s0' Hshadow Hfind Hbody]; subst; simpl.
  - rewrite create_steps. unfold bind. by rewrite Himp.
  - rewrite create_steps. unfold bind. by rewrite Himp, Hget.
  - rewrite create_steps. unfold bind. by rewrite Himp, Hget.
  - rewrite Hshadow. unfold run_method. rewrite Hfind.
    unfold bind. exact Hbody.
Qed.

Lemma errors_propagate_unmodified_witness :
  run_entry Example.env
    (CallLifecycle (VObj "Faulty" 0) "run" []) (Interp ∅ (<[0 := ∅]> ∅) [])
  = (Raise (Exn (UserException "SensorError") "sensor offline"),
     Interp ∅ (<[0 := ∅]> ∅) [EvMethod "Faulty" "run"]).
Proof.
  apply (errors_propagate_unmodified Example.env).
  eapply (raised_in_lifecycle Example.env "Faulty" 0 "run" []
            (Interp ∅ (<[0 := ∅]> ∅) []) "Faulty"
            (Method false (fun _ _ =>
               raise (Exn (UserException "SensorError") "sensor offline")))).
  - vm_compute. reflexivity.
  - vm_compute. reflexivity.
  - vm_compute. reflexivity.
Defined.

(** Conversely, [create] adds no error of its own: whatever it raises arose
    in one of its three steps. *)
Lemma create_raises_in_a_step (E : pyenv) (name : string) (args : list value)
  (s s' : interp) (e : exn) :
  create E name args s = (Raise e, s') ->
  raised_in E (CallCreate name args) s e s'.
Proof.
  rewrite create_steps. unfold bind.
  destruct (import_module E (module_of name) s) as [[m|e0] s1] eqn:Himp.
  - destruct (getattr m (class_of name) s1) as [[c|e1] s2] eqn:Hget.
    + intros Hcall. by apply (raised_in_construction E name args s m s1 c s2).
    + intros [= <- <-]. by apply (raised_in_lookup E name args s m s1).
  - intros [= <- <-]. by apply raised_in_resolution.
Qed.

(** The specification's example: the [Thermostat] built through the factory
    has the property mapping it was given bound to it. *)
Example thermostat_properties :
  let '(r, s) := create Example.env "pkg.devices.Thermostat"
                   [Example.report_fn; Example.telemetry_fn; Example.props]
                   Example.start in
  r = Return (VObj "Thermostat" 0)
  /\ heap s !! 0 ≫= (fun d => d !! "_SimulatedDevice__properties")
     = Some (VDict [("min_temp", VInt 10)]).
Proof. vm_compute. split; reflexivity. Qed.

(** ** Class tables: what [ABCMeta] computes *)

Section ClassTableFacts.

Implicit Types (T : gmap string pyclass) (mro : list string) (n c : string).

(** What class [c] itself binds the name to. *)
Local Abbreviation binds T c n := (T !! c ≫= (fun K => c_dict K !! n)).

Lemma find_method_ext T1 T2 mro n :
  (forall c, c ∈ mro -> binds T1 c n = binds T2 c n) ->
  find_method T1 mro n = find_method T2 mro n.
Proof.
  induction mro as [|c rest IH]; intros Hext; simpl; [done|].
  rewrite (Hext c) by left.
  destruct (binds T2 c n); [done|]. apply IH. intros c' Hc'. apply Hext. by right.
Qed.

Lemma omits_ext T1 T2 mro n :
  (forall c, c ∈ mro -> binds T1 c n = binds T2 c n) ->
  omits T1 mro n = omits T2 mro n.
Proof.
  induction mro as [|c rest IH]; intros Hext; simpl; [done|].
  destruct (String.eqb c "SimulatedDevice"); [done|].
  rewrite (Hext c) by left.
  destruct (binds T2 c n); [done|]. apply IH. intros c' Hc'. apply Hext. by right.
Qed.

(** Registering a class under a name the MRO does not mention changes no
    lookup along that MRO. *)
Lemma binds_insert_fresh T name K mro n :
  name ∉ mro ->
  forall c, c ∈ mro -> binds (<[name := K]> T) c n = binds T c n.
Proof.
  intros Hfresh c Hc. rewrite lookup_insert_ne; [done|].
  intros ->. by apply Hfresh.
Qed.

(** Two registrations of the same class body under the same name bind
    alike, whatever [__abstractmethods__] they carry. *)
Lemma binds_insert_same T name mro ns abc A1 A2 c n :
  binds (<[name := PyClass mro ns abc A1]> T) c n
  = binds (<[name := PyClass mro ns abc A2]> T) c n.
Proof.
  destruct (decide (name = c)) as [->|Hne].
  - by rewrite !lookup_insert_eq.
  - by rewrite !lookup_insert_ne.
Qed.

(** Walking an MRO that [omits] the name ends at the contract's own
    function. *)
Lemma omits_finds_contract T mro n m :
  binds T "SimulatedDevice" n = Some m ->
  omits T mro n = true ->
  find_method T mro n = Some ("SimulatedDevice", m).
Proof.
  intros Hsd. induction mro as [|c rest IH]; simpl; [discriminate|].
  destruct (String.eqb_spec c "SimulatedDevice") as [->|Hc].
  - intros _. by rewrite Hsd.
  - destruct (binds T c n); [discriminate|]. exact IH.
Qed.

(** Along such an MRO every name the contract binds is found, possibly in a
    class below the contract. *)
Lemma omits_finds_some T mro n k m :
  binds T "SimulatedDevice" k = Some m ->
  omits T mro n = true ->
  is_Some (find_method T mro k).
Proof.
  intros Hsd. induction mro as [|c rest IH]; simpl; [discriminate|].
  destruct (String.eqb_spec c "SimulatedDevice") as [->|Hc].
  - intros _. rewrite Hsd. by eexists.
  - destruct (binds T c n); [discriminate|]. intros Hrest.
    destruct (binds T c k); [by eexists|]. by apply IH.
Qed.

Lemma required_abstract n :
  n ∈ SimulatedDevice.required ->
  exists m, SimulatedDevice.namespace !! n = Some m /\ is_abstract m = true.
Proof.
  unfold SimulatedDevice.required. intros Hn.
  repeat (apply elem_of_cons in Hn as [->|Hn]);
    [eexists; split; [reflexivity|reflexivity]..|by apply elem_of_nil in Hn].
Qed.

Lemma own_abstract_spec (ns : gmap string method) n :
  n ∈ own_abstract ns <-> exists m, ns !! n = Some m /\ is_abstract m = true.
Proof.
  unfold own_abstract. rewrite elem_of_dom. split.
  - intros [m Hm]. apply map_lookup_filter_Some in Hm as [Hm Habs]. by exists m.
  - intros [m [Hm Habs]]. exists m. by apply map_lookup_filter_Some.
Qed.

Lemma contract_binds T n m :
  table_inv T -> SimulatedDevice.namespace !! n = Some m ->
  binds T "SimulatedDevice" n = Some m.
Proof.
  intros [(SD & Hsd & _ & Hdict) _ _ _] Hn. rewrite Hsd. simpl. by rewrite Hdict.
Qed.


Lemma table_inv_initial T : device_module_classes = Some T -> table_inv T.
Proof.
  unfold device_module_classes, define_class.
  assert (builtins !! "SimulatedDevice" = None) as -> by reflexivity.
  assert (builtins !! "ABC" = Some (PyClass ["ABC"; "object"] ∅ true ∅)) as ->
    by reflexivity.
  cbn [c_is_abc c_mro c_abstract]. intros [= <-].
  set (mro := ["SimulatedDevice"; "ABC"; "object"]).
  set (A := own_abstract SimulatedDevice.namespace ∪ _).
  assert (forall n, n ∈ A <-> n ∈ own_abstract SimulatedDevice.namespace) as HA.
  { intros n. unfold A. rewrite elem_of_union. split; [|by left].
    intros [H|H]; [done|]. apply elem_of_filter in H as [_ H].
    by apply not_elem_of_empty in H. }
  clearbody A.
  assert (forall c K, builtins !! c = Some K ->
            (forall c', c' ∈ c_mro K -> is_Some (builtins !! c'))
            /\ (forall n, omits builtins (c_mro K) n = false)
            /\ ("SimulatedDevice" ∉ c_mro K)
            /\ c_abstract K = ∅) as Hbuiltin.
  { intros c K. unfold builtins.
    rewrite !lookup_insert_Some, lookup_empty.
    intros [[<- <-]|[_ [[<- <-]|[_ ?]]]]; [| |done]; simpl.
    - split; [|split; [done|split; [|done]]].
      + intros c' Hc'.
        repeat (apply elem_of_cons in Hc' as [->|Hc']); [by eexists..|].
        by apply elem_of_nil in Hc'.
      + intros Hc'.
        repeat (apply elem_of_cons in Hc' as [?|Hc']); try discriminate.
        by apply elem_of_nil in Hc'.
    - split; [|split; [done|split; [|done]]].
      + intros c' Hc'.
        repeat (apply elem_of_cons in Hc' as [->|Hc']); [by eexists..|].
        by apply elem_of_nil in Hc'.
      + intros Hc'.
        repeat (apply elem_of_cons in Hc' as [?|Hc']); try discriminate.
        by apply elem_of_nil in Hc'. }
  split.
  - eexists. rewrite lookup_insert_eq. done.
  - intros c K c'. rewrite lookup_insert_Some. intros [[<- <-]|[Hne HK]] Hc'.
    + simpl in Hc'. rewrite lookup_insert_is_Some.
      apply elem_of_cons in Hc' as [->|Hc']; [by left|].
      destruct (decide ("SimulatedDevice" = c')) as [|Hne]; [by left|right].
      split; [done|].
      repeat (apply elem_of_cons in Hc' as [->|Hc']); [by eexists..|].
      by apply elem_of_nil in Hc'.
    + destruct (Hbuiltin c K HK) as (Hmro & _). rewrite lookup_insert_is_Some.
      destruct (decide ("SimulatedDevice" = c')) as [|Hne']; [by left|right].
      split; [done|]. by apply Hmro.
  - intros c K n. rewrite lookup_insert_Some. intros [[<- <-]|[Hne HK]] Hn Hom.
    + simpl. split; [|done]. apply HA, own_abstract_spec.
      by apply required_abstract.
    + exfalso. destruct (Hbuiltin c K HK) as (_ & Hom' & Hfresh & _).
      rewrite (omits_ext _ builtins) in Hom.
      * by rewrite Hom' in Hom.
      * by apply binds_insert_fresh.
  - intros c K n. rewrite lookup_insert_Some. intros [[<- <-]|[Hne HK]] Hn.
    + simpl in Hn. apply HA, own_abstract_spec in Hn as (m & Hm & Habs).
      unfold resolves_abstract. simpl. rewrite lookup_insert_eq. simpl.
      by rewrite Hm.
    + destruct (Hbuiltin c K HK) as (_ & _ & _ & Hnone).
      rewrite Hnone in Hn. by apply not_elem_of_empty in Hn.
Qed.

Lemma table_inv_define T name base ns T' :
  table_inv T -> define_class T name base ns = Some T' -> table_inv T'.
Proof.
  intros Hinv. unfold define_class.
  destruct (T !! name) as [|] eqn:Hname; [discriminate|].
  destruct (T !! base) as [B|] eqn:Hbase; [|discriminate].
  intros [= <-].
  set (mro := name :: c_mro B).
  set (T0 := <[name := PyClass mro ns (c_is_abc B) ∅]> T).
  set (A := if c_is_abc B then _ else _).
  assert (forall c K, T !! c = Some K -> name ∉ c_mro K) as Hfresh.
  { intros c K HK Hin.
    destruct (inv_closed T Hinv c K name HK Hin) as [? Hx]. congruence. }
  assert (name <> "SimulatedDevice") as Hne.
  { destruct (inv_contract T Hinv) as (SD & Hsd & _). intros ->. congruence. }
  split.
  - destruct (inv_contract T Hinv) as (SD & Hsd & Hrest).
    exists SD. by rewrite lookup_insert_ne.
  - intros c K c'. rewrite lookup_insert_Some. intros [[<- <-]|[Hc HK]] Hc'.
    + simpl in Hc'. apply elem_of_cons in Hc' as [->|Hc'].
      * rewrite lookup_insert_eq. by eexists.
      * rewrite lookup_insert_is_Some'. right.
        by apply (inv_closed T Hinv base B).
    + rewrite lookup_insert_is_Some'. right. by apply (inv_closed T Hinv c K).
  - intros c K n. rewrite lookup_insert_Some. intros [[<- <-]|[Hc HK]] Hn Hom.
    + simpl in Hom |- *. destruct (String.eqb_spec name "SimulatedDevice"); [done|].
      rewrite lookup_insert_eq in Hom. simpl in Hom.
      destruct (ns !! n) eqn:Hns; [discriminate|].
      rewrite (omits_ext _ T) in Hom by (apply binds_insert_fresh; eauto).
      destruct (inv_abstract T Hinv base B n Hbase Hn Hom) as [HnB Habc].
      split; [|done]. unfold A. rewrite Habc.
      apply elem_of_union_r, elem_of_filter. split; [|done].
      destruct (required_abstract n Hn) as (m & Hm & Habs).
      unfold resolves_abstract.
      rewrite (omits_finds_contract T0 mro n m); [done| |].
      * unfold T0. rewrite lookup_insert_ne by done. by apply contract_binds.
      * unfold mro, T0. simpl.
        destruct (String.eqb_spec name "SimulatedDevice"); [done|].
        rewrite lookup_insert_eq. simpl. rewrite Hns.
        rewrite (omits_ext _ T) by (apply binds_insert_fresh; eauto). done.
    + rewrite (omits_ext _ T) in Hom by (apply binds_insert_fresh; eauto).
      by apply (inv_abstract T Hinv c).
  - intros c K n. rewrite lookup_insert_Some. intros [[<- <-]|[Hc HK]] Hn.
    + simpl in Hn |- *. unfold A in Hn.
      destruct (c_is_abc B); [|by apply not_elem_of_empty in Hn].
      apply elem_of_union in Hn as [Hn|Hn].
      * apply own_abstract_spec in Hn as (m & Hm & Habs).
        unfold resolves_abstract, mro. simpl. rewrite lookup_insert_eq. simpl.
        by rewrite Hm.
      * apply elem_of_filter in Hn as [Hres _].
        unfold resolves_abstract in Hres |- *.
        rewrite (find_method_ext _ T0); [done|].
        intros c' _. apply binds_insert_same.
    + unfold resolves_abstract.
      rewrite (find_method_ext _ T) by (apply binds_insert_fresh; eauto).
      by apply (inv_sound T Hinv c).
Qed.

Lemma class_table_ok_inv T : class_table_ok T -> table_inv T.
Proof.
  induction 1 as [T Hinit|T name base ns T' _ IH Hdef].
  - by apply table_inv_initial.
  - by apply (table_inv_define T name base ns).
Qed.

Lemma exec_classes_ok T stmts T' :
  class_table_ok T -> exec_classes T stmts = Some T' -> class_table_ok T'.
Proof.
  revert T. induction stmts as [|st rest IH]; intros T Hok; simpl.
  - by intros [= <-].
  - destruct (define_class T (cs_name st) (cs_base st) (cs_body st)) as [T1|]
      eqn:Hdef; [|discriminate].
    apply IH. by apply (table_define T (cs_name st) (cs_base st) (cs_body st)).
Qed.

Lemma program_classes_ok stmts T :
  device_module_classes ≫= (fun T0 => exec_classes T0 stmts) = Some T ->
  class_table_ok T.
Proof.
  destruct device_module_classes as [T0|] eqn:H0; [|discriminate].
  intros Hexec. apply (exec_classes_ok T0 stmts); [by apply table_initial|].
  exact Hexec.
Qed.

Lemma example_table_ok : class_table_ok Example.table.
Proof.
  apply (program_classes_ok Example.stmts). unfold Example.table.
  destruct (device_module_classes ≫= _) as [T|] eqn:Hrun; [reflexivity|].
  exfalso. apply (f_equal is_Some_bool) in Hrun. revert Hrun.
  vm_compute. discriminate.
Qed.

End ClassTableFacts.

(** ** What class statements keep *)

Lemma some_default {A} (o : option A) (d : A) :
  is_Some_bool o = true -> o = Some (default d o).
Proof. by destruct o. Qed.

(** The table [simulated_device.py] leaves: the builtins and the contract. *)
Lemma initial_table (T : gmap string pyclass) :
  device_module_classes = Some T ->
  exists A,
    T = <["SimulatedDevice" :=
            PyClass ["SimulatedDevice"; "ABC"; "object"]
              SimulatedDevice.namespace true A]> builtins.
Proof.
  unfold device_module_classes, define_class.
  assert (builtins !! "SimulatedDevice" = None) as -> by reflexivity.
  assert (builtins !! "ABC" = Some (PyClass ["ABC"; "object"] ∅ true ∅)) as ->
    by reflexivity.
  cbn [c_is_abc c_mro c_abstract]. intros [= <-]. by eexists.
Qed.

(** Class statements never rebind [ABC] or [object]. *)
Lemma builtins_kept (T : gmap string pyclass) :
  class_table_ok T ->
  T !! "ABC" = Some (PyClass ["ABC"; "object"] ∅ true ∅)
  /\ T !! "object" = Some (PyClass ["object"] ∅ false ∅).
Proof.
  induction 1 as [T Hinit|T name base ns T' _ [IHabc IHobj] Hdef].
  - destruct (initial_table T Hinit) as [A ->].
    split; (rewrite lookup_insert_ne by discriminate; reflexivity).
  - unfold define_class in Hdef.
    destruct (T !! name) eqn:Hname; [discriminate|].
    destruct (T !! base); [|discriminate]. injection Hdef as <-.
    split; (rewrite lookup_insert_ne; [done|intros ->; congruence]).
Qed.

(** The contract's [__abstractmethods__] is exactly the three operations. *)
Lemma contract_abstract_exact (T : gmap string pyclass) (SD : pyclass) (n : string) :
  class_table_ok T -> T !! "SimulatedDevice" = Some SD ->
  n ∈ c_abstract SD <-> n ∈ SimulatedDevice.required.
Proof.
  intros Hok HSD. pose proof (class_table_ok_inv _ Hok) as Hinv.
  destruct (inv_contract _ Hinv) as (SD' & HSD' & Hmro & Hdict).
  rewrite HSD in HSD'. injection HSD' as <-.
  destruct (builtins_kept T Hok) as [Habc Hobj]. split.
  - intros Hn. pose proof (inv_sound _ Hinv _ SD n HSD Hn) as Hres.
    unfold resolves_abstract in Hres. rewrite Hmro in Hres. simpl in Hres.
    rewrite HSD, Habc, Hobj in Hres. simpl in Hres. rewrite Hdict in Hres.
    rewrite !lookup_empty in Hres.
    destruct (SimulatedDevice.namespace !! n) as [mth|] eqn:Hns; [|discriminate].
    unfold SimulatedDevice.namespace in Hns.
    rewrite !lookup_insert_Some, lookup_empty in Hns.
    unfold SimulatedDevice.required.
    destruct Hns as [[<- <-]|[_ [[<- _]|[_ [[<- _]|[_ [[<- _]|[_ ?]]]]]]]];
      [discriminate| | | |done]; by repeat constructor.
  - intros Hn. apply (inv_abstract _ Hinv "SimulatedDevice" SD n HSD Hn).
    by rewrite Hmro.
Qed.

(** ** The constructor *)

(** The three assignments of [__init__], as one update of the instance's
    [__dict__]. *)
Lemma init_binds cls a r t p s :
  SimulatedDevice.__init__ (VObj cls a) [r; t; p] s
  = (Return VNone,
     Interp (sys_modules s)
       (<[a := <["_SimulatedDevice__properties" := p]>
                 (<["_SimulatedDevice__send_telemetry" := t]>
                 (<["_SimulatedDevice__report_state" := r]>
                    (default ∅ (heap s !! a))))]> (heap s))
       (trace s)).
Proof.
  unfold SimulatedDevice.__init__, bind, setattr, ret. simpl.
  rewrite !lookup_insert_eq. simpl. by rewrite !insert_insert_eq.
Qed.

(** ** Instantiation *)

Section InstantiationFacts.

Context (E : pyenv).


(** No class of the contract's own MRO binds [__new__]. *)
Lemma contract_default_new (T : gmap string pyclass) :
  class_table_ok T -> default_new T "SimulatedDevice" = true.
Proof.
  intros Hok. destruct (inv_contract _ (class_table_ok_inv _ Hok))
    as (SD & HSD & Hmro & Hdict).
  destruct (builtins_kept T Hok) as [Habc Hobj].
  unfold default_new. rewrite HSD, Hmro. simpl.
  rewrite HSD, Habc, Hobj. simpl. by rewrite Hdict.
Qed.

(** With [object.__new__] in force, a class with an abstract name left is
    refused before anything is allocated. *)
Lemma instantiate_abstract cls K n args s :
  table_inv (classes E) -> classes E !! cls = Some K ->
  find_method (classes E) (c_mro K) "__new__" = None ->
  n ∈ SimulatedDevice.required -> omits (classes E) (c_mro K) n = true ->
  instantiate E cls args s = (Raise (abstract_error cls), s).
Proof.
  intros Hinv HK Hnew Hn Hom. unfold instantiate. rewrite HK, Hnew.
  unfold bind, object_new.
  destruct (omits_finds_some (classes E) (c_mro K) n "__init__"
              (Method false SimulatedDevice.__init__)) as [[owner mi] Hinit];
    [by apply contract_binds|done|].
  rewrite Hinit. cbn [surplus_arguments].
  destruct (inv_abstract _ Hinv cls K n HK Hn Hom) as [HnA _].
  rewrite bool_decide_false; [reflexivity|].
  intros Heq. rewrite Heq in HnA. by apply not_elem_of_empty in HnA.
Qed.

(** With [object.__new__] in force, a concrete class is instantiated by
    allocating an object and running the [__init__] step on it. *)
Lemma instantiate_concrete cls K args s :
  classes E !! cls = Some K ->
  find_method (classes E) (c_mro K) "__new__" = None ->
  c_abstract K = ∅ ->
  surplus_arguments (find_method (classes E) (c_mro K) "__init__") args = false ->
  instantiate E cls args s
  = run_init E cls (VObj cls (fresh (dom (heap s)))) args
      (Interp (sys_modules s) (<[fresh (dom (heap s)) := ∅]> (heap s)) (trace s)).
Proof.
  intros HK Hnew Habs Hsurplus. unfold instantiate. rewrite HK, Hnew.
  unfold bind, object_new. rewrite Hsurplus, Habs.
  rewrite bool_decide_true by done. simpl.
  unfold is_instance. by rewrite bool_decide_true by done.
Qed.

(** A class all of whose abstract names are among the contract's three, and
    which implements the three, has no abstract name left. *)
Lemma implementing_class_is_concrete cls K :
  table_inv (classes E) -> classes E !! cls = Some K ->
  (forall n, n ∈ c_abstract K -> n ∈ SimulatedDevice.required) ->
  (forall op, op ∈ SimulatedDevice.required ->
     implements (classes E) cls op = true) ->
  c_abstract K = ∅.
Proof.
  intros Hinv HK Hsub Himpl. apply set_eq. intros n. split; [|intros Hn].
  - intros Hn. exfalso. pose proof (inv_sound _ Hinv cls K n HK Hn) as Hres.
    pose proof (Himpl n (Hsub n Hn)) as Hi. unfold implements in Hi.
    rewrite HK in Hi. unfold resolves_abstract in Hres.
    destruct (find_method _ _ _) as [[owner m]|]; [|discriminate].
    rewrite Hres in Hi. discriminate.
  - by apply not_elem_of_empty in Hn.
Qed.

(** The bounded-abstractness test, as a statement about the class. *)
Lemma abstract_within_spec (T : gmap string pyclass) cls K :
  T !! cls = Some K -> abstract_within T cls = true ->
  forall n, n ∈ c_abstract K -> n ∈ SimulatedDevice.required.
Proof.
  intros HK. unfold abstract_within. rewrite HK. rewrite forallb_forall.
  intros Hall n Hn.
  assert (bool_decide (n ∈ SimulatedDevice.required) = true) as Hb.
  { apply Hall. by apply list_elem_of_In, elem_of_elements. }
  by apply bool_decide_eq_true in Hb.
Qed.

(** The contract's [__init__] accepts any three arguments. *)
Lemma contract_init_accepts cls r t p :
  table_inv (classes E) ->
  lacks_operation (classes E) cls "__init__" = true ->
  init_accepts E cls [r; t; p].
Proof.
  intros Hinv Hlacks. unfold init_accepts, lacks_operation in *.
  destruct (classes E !! cls) as [K|]; [|discriminate]. simpl.
  rewrite (omits_finds_contract _ _ "__init__"
             (Method false SimulatedDevice.__init__));
    [|by apply contract_binds|done].
  intros a s. eexists. apply init_binds.
Qed.

(** The [__init__] step returns the object when the constructor accepts. *)
Lemma run_init_accepts cls a args s :
  init_accepts E cls args ->
  (run_init E cls (VObj cls a) args s).1 = Return (VObj cls a).
Proof.
  unfold init_accepts, run_init.
  destruct (classes E !! cls ≫= _) as [[owner mi]|]; [|done].
  intros Hacc. unfold bind, log. simpl.
  by destruct (Hacc a (Interp (sys_modules s) (heap s)
                         (trace s ++ [EvMethod owner "__init__"]))) as [s' ->].
Qed.

End InstantiationFacts.

(** ** Claims about the contract *)

(** C2, as claimed, fails: [Sneaky] derives from the contract and leaves
    [on_update] and [run] out, but it binds [__new__]; [object.__new__], which
    holds the abstract-class test, is never reached, and [Sneaky()] returns
    [42] with no error. *)
Lemma abstract_instantiation_counterexample : ~ abstract_instantiation_claim.
Proof.
  intros Hclaim.
  destruct (Hclaim Example.env "Sneaky" [] Example.start example_table_ok)
    as (e & s' & Hcall).
  - right. exists "run". split.
    + unfold SimulatedDevice.required. by repeat constructor.
    + vm_compute. reflexivity.
  - assert ((call Example.env (VClass "Sneaky") [] Example.start).1
            = Return (VInt 42)) as Hruns by (vm_compute; reflexivity).
    rewrite Hcall in Hruns. discriminate.
Qed.

(** C2, amended. Calling [SimulatedDevice] itself, or a subclass that keeps
    the default [__new__] and in whose MRO no class below the contract binds
    one of [initialize], [on_update], [run], raises the [TypeError] of
    [object.__new__] for an abstract class (the contract violation). It is
    raised before anything else happens: no object is allocated and no
    function of the class, [__init__] included, has been called; the call
    itself is the only event. *)
Theorem abstract_instantiation_fails (E : pyenv) (cls : string)
  (args : list value) (s : interp) :
  class_table_ok (classes E) ->
  (cls = "SimulatedDevice"
   \/ default_new (classes E) cls = true
      /\ exists op, (op ∈ SimulatedDevice.required)
                   /\ lacks_operation (classes E) cls op = true) ->
  call E (VClass cls) args s
  = (Raise (abstract_error cls),
     Interp (sys_modules s) (heap s) (trace s ++ [EvCall (VClass cls) args])).
Proof.
  intros Hok Hcls. pose proof (class_table_ok_inv _ Hok) as Hinv.
  assert (exists K op, classes E !! cls = Some K
            /\ find_method (classes E) (c_mro K) "__new__" = None
            /\ (op ∈ SimulatedDevice.required)
            /\ omits (classes E) (c_mro K) op = true)
    as (K & op & HK & Hnew & Hop & Hom).
  { assert (default_new (classes E) cls = true
            /\ exists op, (op ∈ SimulatedDevice.required)
                         /\ lacks_operation (classes E) cls op = true)
      as [Hdefault (op & Hop & Hlacks)].
    { destruct Hcls as [->|Hsub]; [|exact Hsub].
      split; [by apply contract_default_new|]. exists "run". split.
      - unfold SimulatedDevice.required. by repeat constructor.
      - destruct (inv_contract _ Hinv) as (SD & HSD & Hmro & _).
        unfold lacks_operation. by rewrite HSD, Hmro. }
    unfold default_new, lacks_operation in *.
    destruct (classes E !! cls) as [K|]; [|discriminate].
    exists K, op. split; [done|]. split; [|done].
    by destruct (find_method _ _ "__new__"). }
  unfold call, bind, log. simpl.
  by rewrite (instantiate_abstract E cls K op args _ Hinv HK Hnew Hop Hom).
Qed.

Lemma abstract_instantiation_fails_witness :
  call Example.env (VClass "Partial")
    [Example.report_fn; Example.telemetry_fn; Example.props] Example.start
  = (Raise (abstract_error "Partial"),
     Interp ∅ ∅
       ([] ++ [EvCall (VClass "Partial")
                 [Example.report_fn; Example.telemetry_fn; Example.props]])).
Proof.
  refine (abstract_instantiation_fails Example.env "Partial"
            [Example.report_fn; Example.telemetry_fn; Example.props]
            Example.start example_table_ok _).
  right. split; [vm_compute; reflexivity|]. exists "run". split.
  - unfold SimulatedDevice.required. by repeat constructor.
  - vm_compute. reflexivity.
Defined.

(** C1, as claimed, fails at two classes that implement the three
    operations and whose constructor accepts the arguments. [Weird] binds
    [__new__], and [create] returns what that returns: [None]. [Extra]
    declares a fourth operation abstract, and [create] raises the
    abstract-class [TypeError]. [create] itself checks neither. *)
Lemma create_instance_counterexample :
  ~ create_instance_claim Example.env "pkg.devices" "Weird" "Weird"
      [Example.report_fn; Example.telemetry_fn; Example.props] Example.start
  /\ ~ create_instance_claim Example.env "pkg.devices" "Extra" "Extra"
        [Example.report_fn; Example.telemetry_fn; Example.props] Example.start.
Proof.
  pose proof (class_table_ok_inv _ example_table_ok) as Hinv.
  split; intros Hclaim.
  - destruct Hclaim as (a & s2 & Hcreate).
    + exact example_table_ok.
    + reflexivity.
    + exists (PyModule "pkg.devices" Example.devices_ns), Example.imported.
      split; vm_compute; reflexivity.
    + intros op Hop. unfold SimulatedDevice.required in Hop.
      repeat (apply elem_of_cons in Hop as [->|Hop]);
        [vm_compute; reflexivity..|by apply elem_of_nil in Hop].
    + apply contract_init_accepts; [exact Hinv|]. vm_compute. reflexivity.
    + assert ((create Example.env ("pkg.devices" +:+ "." +:+ "Weird")
                 [Example.report_fn; Example.telemetry_fn; Example.props]
                 Example.start).1 = Return VNone) as Hnone
        by (vm_compute; reflexivity).
      rewrite Hcreate in Hnone. discriminate.
  - destruct Hclaim as (a & s2 & Hcreate).
    + exact example_table_ok.
    + reflexivity.
    + exists (PyModule "pkg.devices" Example.devices_ns), Example.imported.
      split; vm_compute; reflexivity.
    + intros op Hop. unfold SimulatedDevice.required in Hop.
      repeat (apply elem_of_cons in Hop as [->|Hop]);
        [vm_compute; reflexivity..|by apply elem_of_nil in Hop].
    + apply contract_init_accepts; [exact Hinv|]. vm_compute. reflexivity.
    + assert ((create Example.env ("pkg.devices" +:+ "." +:+ "Extra")
                 [Example.report_fn; Example.telemetry_fn; Example.props]
                 Example.start).1 = Raise (abstract_error "Extra")) as Hfails
        by (vm_compute; reflexivity).
      rewrite Hcreate in Hfails. discriminate.
Qed.

(** C1, amended. For a name [module_path.ClassName] whose module resolves
    and binds [ClassName] to a class that implements [initialize],
    [on_update] and [run], has no other abstract operation left, keeps the
    default [__new__], and whose constructor accepts the arguments, [create]
    returns a new object of exactly that class, not [None]: the object is
    allocated at an address no object had, with an empty [__dict__], and
    [__init__] has run on it with the forwarded arguments after the import,
    the lookup and the call, which is all that happened. *)
Theorem create_returns_instance (E : pyenv)
  (module_path class_name cls : string) (args : list value)
  (s s1 : interp) (m : pymodule) :
  class_table_ok (classes E) ->
  PyStr.free_of "." class_name = true ->
  import_module E module_path s = (Return m, s1) ->
  mod_dict m !! class_name = Some (VClass cls) ->
  (forall op, op ∈ SimulatedDevice.required ->
     implements (classes E) cls op = true) ->
  init_accepts E cls args ->
  default_new (classes E) cls = true ->
  abstract_within (classes E) cls = true ->
  create E (module_path +:+ "." +:+ class_name) args s
  = (Return (VObj cls (fresh (dom (heap s)))),
     (run_init E cls (VObj cls (fresh (dom (heap s)))) args
        (Interp (sys_modules s1) (<[fresh (dom (heap s)) := ∅]> (heap s))
           (trace s ++ [EvImport module_path;
                        EvGetattr (mod_name m) class_name;
                        EvCall (VClass cls) args]))).2)
  /\ heap s !! fresh (dom (heap s)) = None
  /\ VObj cls (fresh (dom (heap s))) <> VNone.
Proof.
  intros Hok Hfree Himp Hattr Himpl Haccepts Hdefault Hwithin.
  pose proof (class_table_ok_inv _ Hok) as Hinv.
  destruct (split_dotted module_path class_name Hfree) as [Hmod Hcls].
  destruct (import_module_returns E _ _ _ _ Himp) as (_ & Hheap & Htrace & _).
  split; [|split; [apply not_elem_of_dom, is_fresh|done]].
  rewrite <- Hmod in Himp.
  rewrite (create_found E _ args s s1 m (VClass cls) Himp)
    by (by rewrite Hcls).
  rewrite Hcls, Hheap, Htrace. unfold call, bind at 1, log. simpl.
  assert (exists K, classes E !! cls = Some K) as [K HK].
  { unfold default_new in Hdefault.
    destruct (classes E !! cls) as [K|]; [by exists K|discriminate]. }
  assert (find_method (classes E) (c_mro K) "__new__" = None) as Hnew.
  { unfold default_new in Hdefault. rewrite HK in Hdefault.
    by destruct (find_method _ _ "__new__"). }
  assert (surplus_arguments (find_method (classes E) (c_mro K) "__init__") args
          = false) as Hsurplus.
  { unfold init_accepts in Haccepts. rewrite HK in Haccepts. simpl in Haccepts.
    destruct (find_method _ _ "__init__") as [[owner mi]|]; [done|].
    by rewrite Haccepts. }
  rewrite (instantiate_concrete E cls K args _ HK Hnew
             (implementing_class_is_concrete E cls K Hinv HK
                (abstract_within_spec _ cls K HK Hwithin) Himpl)
             Hsurplus).
  simpl. rewrite <- !app_assoc. simpl.
  rewrite (surjective_pairing (run_init E cls _ args _)).
  by rewrite run_init_accepts.
Qed.

Lemma create_returns_instance_witness :
  create Example.env "pkg.devices.Thermostat"
    [Example.report_fn; Example.telemetry_fn; Example.props] Example.start
  = (Return (VObj "Thermostat" 0),
     Interp Example.loaded
       (<[0 := bound_dict Example.report_fn Example.telemetry_fn Example.props]> ∅)
       [EvImport "pkg.devices"; EvGetattr "pkg.devices" "Thermostat";
        EvCall (VClass "Thermostat")
          [Example.report_fn; Example.telemetry_fn; Example.props];
        EvMethod "SimulatedDevice" "__init__"]).
Proof.
  pose proof (proj1 (create_returns_instance Example.env "pkg.devices"
                       "Thermostat" "Thermostat"
                       [Example.report_fn; Example.telemetry_fn; Example.props]
                       Example.start Example.imported
                       (PyModule "pkg.devices" Example.devices_ns)
                       example_table_ok eq_refl
                       ltac:(vm_compute; reflexivity)
                       ltac:(vm_compute; reflexivity)
                       ltac:(intros op Hop;
                             unfold SimulatedDevice.required in Hop;
                             repeat (apply elem_of_cons in Hop as [->|Hop]);
                             [vm_compute; reflexivity..
                             |by apply elem_of_nil in Hop])
                       (contract_init_accepts Example.env "Thermostat" _ _ _
                          (class_table_ok_inv _ example_table_ok)
                          ltac:(vm_compute; reflexivity))
                       ltac:(vm_compute; reflexivity)
                       ltac:(vm_compute; reflexivity))) as Hcreate.
  etransitivity; [exact Hcreate|]. vm_compute. reflexivity.
Defined.

(** C7. The constructor stores the three references in the instance under
    the name-mangled (private) attributes [_SimulatedDevice__report_state],
    [_SimulatedDevice__send_telemetry] and [_SimulatedDevice__properties] and
    touches no other attribute. Every other function the contract defines
    ([initialize], [on_update], [run]) leaves the whole state as it found it,
    so it reassigns none of them, and it returns [None] or raises: none hands
    a stored reference out. The contract defines no further name. *)
Theorem bound_references_are_fixed (cls : string) (a : nat) (r t p : value)
  (s s' : interp) (n : string) (m : method) (args : list value) :
  SimulatedDevice.namespace !! n = Some m ->
  n <> "__init__" ->
  (exists d,
     SimulatedDevice.__init__ (VObj cls a) [r; t; p] s
     = (Return VNone, Interp (sys_modules s) (<[a := d]> (heap s)) (trace s))
     /\ d !! "_SimulatedDevice__report_state" = Some r
     /\ d !! "_SimulatedDevice__send_telemetry" = Some t
     /\ d !! "_SimulatedDevice__properties" = Some p
     /\ forall k, k <> "_SimulatedDevice__report_state" ->
                  k <> "_SimulatedDevice__send_telemetry" ->
                  k <> "_SimulatedDevice__properties" ->
                  d !! k = default ∅ (heap s !! a) !! k)
  /\ (body m (VObj cls a) args s' = (Return VNone, s')
      \/ exists e, body m (VObj cls a) args s' = (Raise e, s'))
  /\ dom SimulatedDevice.namespace
     = list_to_set ["__init__"; "initialize"; "on_update"; "run"].
Proof.
  intros Hm Hn. split; [|split].
  - eexists. split; [apply init_binds|].
    split; [by rewrite lookup_insert_ne, lookup_insert_ne, lookup_insert_eq|].
    split; [by rewrite lookup_insert_ne, lookup_insert_eq|].
    split; [by rewrite lookup_insert_eq|].
    intros k H1 H2 H3. by rewrite !lookup_insert_ne.
  - unfold SimulatedDevice.namespace in Hm.
    rewrite !lookup_insert_Some, lookup_empty in Hm.
    destruct Hm as [[<- _]|[_ [[_ <-]|[_ [[_ <-]|[_ [[_ <-]|[_ ?]]]]]]]];
      [done| | | |done]; simpl.
    + destruct args; [by left|right; by eexists].
    + destruct args as [|? [|? [|? ?]]]; [right|right|left|right];
        first [done|by eexists].
    + destruct args; [by left|right; by eexists].
  - unfold SimulatedDevice.namespace. rewrite !dom_insert_L, dom_empty_L.
    simpl. by rewrite !(assoc_L (∪)).
Qed.

Lemma bound_references_are_fixed_witness :
  SimulatedDevice.on_update (VObj "Thermostat" 0) [VInt 1; VInt 2] Example.start
  = (Return VNone, Example.start)
  \/ exists e,
       SimulatedDevice.on_update (VObj "Thermostat" 0) [VInt 1; VInt 2]
         Example.start
       = (Raise e, Example.start).
Proof.
  refine (proj1 (proj2 (bound_references_are_fixed "Thermostat" 0
                          Example.report_fn Example.telemetry_fn Example.props
                          Example.start Example.start "on_update"
                          (Method true SimulatedDevice.on_update)
                          [VInt 1; VInt 2] _ _))).
  - reflexivity.
  - discriminate.
Defined.




(** ** The name split *)

Section SplitFacts.

Import PyStr.

Lemma cut_last_Some (c : ascii) (s before after : string) :
  cut_last c s = Some (before, after) ->
  s = before +:+ String c after /\ free_of c after = true.
Proof.
  revert before. induction s as [|a rest IH]; intros before; simpl; [done|].
  destruct (cut_last c rest) as [[b0 a0]|] eqn:Hcut.
  - intros [= <- <-]. destruct (IH b0 eq_refl) as [-> Hfree]. by split.
  - destruct (Ascii.eqb_spec a c) as [->|Hne]; [|done].
    intros [= <- <-]. split; [done|].
    by apply PyStrFacts.cut_last_None_free.
Qed.

Lemma free_of_false_cut (c : ascii) (s : string) :
  free_of c s = false -> is_Some (cut_last c s).
Proof.
  intros Hfree. destruct (cut_last c s) as [ba|] eqn:Hcut; [by eexists|].
  rewrite (PyStrFacts.cut_last_None_free _ _ Hcut) in Hfree. discriminate.
Qed.

End SplitFacts.

(** X1. Round trip of the three splitting lines: for a name that contains
    a separator, the module path, a dot and the class name put together are
    the name again; nothing is lost or normalised (empty segments, doubled
    dots and a trailing dot included). *)
Theorem split_round_trip (name : string) :
  PyStr.free_of "." name = false ->
  module_of name +:+ "." +:+ class_of name = name.
Proof.
  intros Hdot. pose proof (split_agrees name) as Hsplit.
  unfold Spec.split_on_last_separator in Hsplit.
  destruct (free_of_false_cut "." name Hdot) as [[before after] Hcut].
  rewrite Hcut in Hsplit. injection Hsplit as -> ->.
  destruct (cut_last_Some _ _ _ _ Hcut) as [Heq _]. symmetry. exact Heq.
Qed.

Lemma split_round_trip_witness :
  module_of "pkg..devices.Thermostat" +:+ "." +:+ class_of "pkg..devices.Thermostat"
  = "pkg..devices.Thermostat".
Proof.
  exact (split_round_trip "pkg..devices.Thermostat" eq_refl).
Defined.

(** X2. The class name [create] asks [getattr] for never contains a
    separator, whatever the name. *)
Theorem class_segment_has_no_dot (name : string) :
  PyStr.free_of "." (class_of name) = true.
Proof.
  pose proof (split_agrees name) as Hsplit.
  unfold Spec.split_on_last_separator in Hsplit.
  destruct (PyStr.cut_last "." name) as [[before after]|] eqn:Hcut.
  - injection Hsplit as _ ->. by destruct (cut_last_Some _ _ _ _ Hcut).
  - injection Hsplit as _ ->. by apply PyStrFacts.cut_last_None_free.
Qed.

(** A name that starts with a separator has an empty module path or one
    that starts with a separator. *)
Lemma leading_dot_module (name : string) :
  PyStr.starts_with_dot name = true ->
  module_of name = "" \/ PyStr.starts_with_dot (module_of name) = true.
Proof.
  intros Hdot. pose proof (split_agrees name) as Hsplit.
  unfold Spec.split_on_last_separator in Hsplit.
  destruct name as [|c rest]; [discriminate|]. simpl in Hdot, Hsplit.
  destruct (PyStr.cut_last "." rest) as [[before after]|].
  - injection Hsplit as -> _. by right.
  - rewrite Hdot in Hsplit. injection Hsplit as -> _. by left.
Qed.

(** X3. [create] passes no [package] to [import_module], so a name that
    starts with a separator can never be created: its module path is empty
    ([ValueError]) or relative ([TypeError]), and in both cases [create] stops
    at the import, with nothing looked up, called or allocated. *)
Theorem create_leading_separator (E : pyenv) (name : string)
  (args : list value) (s : interp) :
  PyStr.starts_with_dot name = true ->
  exists e,
    create E name args s
    = (Raise e, Interp (sys_modules s) (heap s)
                  (trace s ++ [EvImport (module_of name)]))
    /\ (module_of name = "" /\ e = Exn ValueError "Empty module name"
        \/ PyStr.starts_with_dot (module_of name) = true
           /\ exn_class e = TypeError).
Proof.
  intros Hdot. rewrite create_steps. unfold bind at 1.
  unfold import_module, bind, log, raise. simpl.
  destruct (leading_dot_module name Hdot) as [Hmod|Hmod].
  - rewrite Hmod. simpl. eexists. split; [reflexivity|]. by left.
  - rewrite Hmod. eexists. split; [reflexivity|]. by right.
Qed.

Lemma create_leading_separator_witness :
  exists e,
    create Example.env "..devices.Thermostat" [] Example.start
    = (Raise e, Interp ∅ ∅ ([] ++ [EvImport (module_of "..devices.Thermostat")]))
    /\ (module_of "..devices.Thermostat" = ""
        /\ e = Exn ValueError "Empty module name"
        \/ PyStr.starts_with_dot (module_of "..devices.Thermostat") = true
           /\ exn_class e = TypeError).
Proof.
  exact (create_leading_separator Example.env "..devices.Thermostat" []
           Example.start eq_refl).
Defined.

(** X4. [create] adds no failure of its own: every error it raises arose in
    its import, its attribute lookup or the call of the symbol found. In
    particular [parts[-1]] never raises an [IndexError], since [split] never
    returns an empty list. *)
Theorem create_raises_only_in_steps (E : pyenv) (name : string)
  (args : list value) (s s' : interp) (e : exn) :
  create E name args s = (Raise e, s') ->
  raised_in E (CallCreate name args) s e s'
  /\ PyStr.item_last (PyStr.split "." name) <> None.
Proof.
  intros Hraise. split; [by apply create_raises_in_a_step|].
  by rewrite last_item_split.
Qed.

Lemma create_raises_only_in_steps_witness :
  raised_in Example.env (CallCreate "pkg.devices.VERSION" [VInt 1])
    Example.start (Exn TypeError "object is not callable")
    (Interp Example.loaded ∅
       [EvImport "pkg.devices"; EvGetattr "pkg.devices" "VERSION";
        EvCall (VInt 3) [VInt 1]]).
Proof.
  refine (proj1 (create_raises_only_in_steps Example.env "pkg.devices.VERSION"
                   [VInt 1] Example.start _ _ _)).
  vm_compute. reflexivity.
Defined.

(** X5. A lookup that fails does not undo the import before it: after
    [create] has raised for a class the module lacks, the module is in
    [sys.modules], and importing it again returns that same module object
    from the cache, whatever the finder would find. *)
Theorem failed_lookup_keeps_module (E : pyenv) (name : string)
  (args : list value) (s s1 s' : interp) (m : pymodule) (e : exn) :
  import_module E (module_of name) s = (Return m, s1) ->
  mod_dict m !! class_of name = None ->
  create E name args s = (Raise e, s') ->
  sys_modules s' !! module_of name = Some m
  /\ forall E', import_module E' (module_of name) s'
                = (Return m, Interp (sys_modules s') (heap s')
                               (trace s' ++ [EvImport (module_of name)])).
Proof.
  intros Himp Hattr. rewrite create_steps. unfold bind at 1. rewrite Himp.
  unfold bind, getattr, log, raise. simpl. rewrite Hattr. intros [= _ <-].
  destruct (import_module_returns E _ _ _ _ Himp) as (Hm & _ & _ & Hne & Hdot).
  simpl. split; [exact Hm|]. intros E'.
  by rewrite (import_module_cached E' _ _ m) by done.
Qed.

Lemma failed_lookup_keeps_module_witness :
  sys_modules
    (create Example.env "pkg.devices.NoSuchDevice" [] Example.start).2
    !! module_of "pkg.devices.NoSuchDevice"
  = Some (PyModule "pkg.devices" Example.devices_ns).
Proof.
  refine (proj1 (failed_lookup_keeps_module Example.env
                   "pkg.devices.NoSuchDevice" [] Example.start
                   (Interp Example.loaded
                      ∅ [EvImport "pkg.devices"])
                   _ (PyModule "pkg.devices" Example.devices_ns)
                   (Exn AttributeError
                      "module 'pkg.devices' has no attribute 'NoSuchDevice'")
                   _ _ _)).
  - vm_compute. reflexivity.
  - vm_compute. reflexivity.
  - vm_compute. reflexivity.
Defined.

(** The state [create] has reached when it calls the symbol it found. *)
Lemma create_reaches_call (E : pyenv) (name : string) (args : list value)
  (s s1 : interp) (m : pymodule) (v : value) :
  import_module E (module_of name) s = (Return m, s1) ->
  mod_dict m !! class_of name = Some v ->
  create E name args s
  = call E v args
      (Interp (sys_modules s1) (heap s)
         (trace s ++ [EvImport (module_of name);
                      EvGetattr (mod_name m) (class_of name)])).
Proof.
  intros Himp Hattr. rewrite (create_found E name args s s1 m v Himp Hattr).
  destruct (import_module_returns E _ _ _ _ Himp) as (_ & -> & -> & _).
  by rewrite <- app_assoc.
Qed.

(** The class a contract violation is about, with the operation it lacks. *)
Lemma lacking_class (T : gmap string pyclass) (cls : string) :
  class_table_ok T ->
  (cls = "SimulatedDevice"
   \/ default_new T cls = true
      /\ exists op, (op ∈ SimulatedDevice.required)
                   /\ lacks_operation T cls op = true) ->
  exists K op, T !! cls = Some K
               /\ find_method T (c_mro K) "__new__" = None
               /\ (op ∈ SimulatedDevice.required)
               /\ omits T (c_mro K) op = true.
Proof.
  intros Hok Hcls. pose proof (class_table_ok_inv _ Hok) as Hinv.
  assert (default_new T cls = true
          /\ exists op, (op ∈ SimulatedDevice.required)
                       /\ lacks_operation T cls op = true)
    as [Hdefault (op & Hop & Hlacks)].
  { destruct Hcls as [->|Hsub]; [|exact Hsub].
    split; [by apply contract_default_new|]. exists "run". split.
    - unfold SimulatedDevice.required. by repeat constructor.
    - destruct (inv_contract _ Hinv) as (SD & HSD & Hmro & _).
      unfold lacks_operation. by rewrite HSD, Hmro. }
  unfold default_new, lacks_operation in *.
  destruct (T !! cls) as [K|]; [|discriminate].
  exists K, op. split; [done|]. split; [|done].
  by destruct (find_method _ _ "__new__").
Qed.

(** X6. The factory cannot build the contract itself or an incomplete
    device that keeps the default [__new__]: when the name resolves to
    [SimulatedDevice], or to such a subclass that leaves one of the three
    operations unbound below the contract, [create] raises the abstract-class
    [TypeError] after import, lookup and call, with the heap as it was. *)
Theorem create_refuses_abstract_class (E : pyenv) (name cls : string)
  (args : list value) (s s1 : interp) (m : pymodule) :
  class_table_ok (classes E) ->
  import_module E (module_of name) s = (Return m, s1) ->
  mod_dict m !! class_of name = Some (VClass cls) ->
  (cls = "SimulatedDevice"
   \/ default_new (classes E) cls = true
      /\ exists op, (op ∈ SimulatedDevice.required)
                   /\ lacks_operation (classes E) cls op = true) ->
  create E name args s
  = (Raise (abstract_error cls),
     Interp (sys_modules s1) (heap s)
       (trace s ++ [EvImport (module_of name);
                    EvGetattr (mod_name m) (class_of name);
                    EvCall (VClass cls) args])).
Proof.
  intros Hok Himp Hattr Hcls. pose proof (class_table_ok_inv _ Hok) as Hinv.
  destruct (lacking_class _ cls Hok Hcls) as (K & op & HK & Hnew & Hop & Hom).
  rewrite (create_reaches_call E name args s s1 m _ Himp Hattr).
  unfold call, bind, log. simpl.
  rewrite (instantiate_abstract E cls K op args _ Hinv HK Hnew Hop Hom).
  by rewrite <- app_assoc.
Qed.

Lemma create_refuses_abstract_class_witness :
  create Example.env "pkg.devices.SimulatedDevice"
    [Example.report_fn; Example.telemetry_fn; Example.props] Example.start
  = (Raise (abstract_error "SimulatedDevice"),
     Interp Example.loaded ∅
       ([] ++ [EvImport (module_of "pkg.devices.SimulatedDevice");
               EvGetattr "pkg.devices" (class_of "pkg.devices.SimulatedDevice");
               EvCall (VClass "SimulatedDevice")
                 [Example.report_fn; Example.telemetry_fn; Example.props]])).
Proof.
  refine (create_refuses_abstract_class Example.env
            "pkg.devices.SimulatedDevice" "SimulatedDevice"
            [Example.report_fn; Example.telemetry_fn; Example.props]
            Example.start Example.imported
            (PyModule "pkg.devices" Example.devices_ns)
            example_table_ok _ _ _).
  - vm_compute. reflexivity.
  - vm_compute. reflexivity.
  - by left.
Defined.

(** X7. A name that resolves to plain data (a module constant: [None], a
    number, a string, a dictionary) makes [create] raise the [TypeError] of
    calling a non-callable, after the call was attempted and with no object
    allocated. *)
Theorem create_refuses_plain_data (E : pyenv) (name : string)
  (args : list value) (s s1 : interp) (m : pymodule) (v : value) :
  import_module E (module_of name) s = (Return m, s1) ->
  mod_dict m !! class_of name = Some v ->
  is_plain_data v = true ->
  create E name args s
  = (Raise (Exn TypeError "object is not callable"),
     Interp (sys_modules s1) (heap s)
       (trace s ++ [EvImport (module_of name);
                    EvGetattr (mod_name m) (class_of name);
                    EvCall v args])).
Proof.
  intros Himp Hattr Hdata.
  rewrite (create_reaches_call E name args s s1 m _ Himp Hattr).
  unfold call, bind, log, raise. simpl.
  destruct v; try discriminate; by rewrite <- app_assoc.
Qed.

Lemma create_refuses_plain_data_witness :
  create Example.env "pkg.devices.VERSION" [VInt 1] Example.start
  = (Raise (Exn TypeError "object is not callable"),
     Interp Example.loaded ∅
       ([] ++ [EvImport (module_of "pkg.devices.VERSION");
               EvGetattr "pkg.devices" (class_of "pkg.devices.VERSION");
               EvCall (VInt 3) [VInt 1]])).
Proof.
  refine (create_refuses_plain_data Example.env "pkg.devices.VERSION" [VInt 1]
            Example.start
            (Interp Example.loaded
               ∅ [EvImport "pkg.devices"])
            (PyModule "pkg.devices" Example.devices_ns) (VInt 3) _ _ _).
  - vm_compute. reflexivity.
  - vm_compute. reflexivity.
  - reflexivity.
Defined.

(** ** Devices built through the contract's constructor *)






(** X11. Running the constructor again on an existing device rebinds all
    three references, and only the last run counts: two runs in a row leave
    exactly the state of the second alone (so a repeated run with the same
    arguments changes nothing). *)
Theorem init_last_call_wins (cls : string) (a : nat)
  (r t p r' t' p' : value) (s : interp) :
  (let* _ := SimulatedDevice.__init__ (VObj cls a) [r'; t'; p'] in
   SimulatedDevice.__init__ (VObj cls a) [r; t; p]) s
  = SimulatedDevice.__init__ (VObj cls a) [r; t; p] s.
Proof.
  unfold bind. rewrite !init_binds. simpl.
  rewrite lookup_insert_eq, insert_insert_eq. simpl.
  do 2 f_equal. f_equal. apply map_eq. intros k.
  destruct (decide (k = "_SimulatedDevice__properties")) as [->|H1];
    [by rewrite !lookup_insert_eq|].
  rewrite !(lookup_insert_ne _ "_SimulatedDevice__properties") by done.
  destruct (decide (k = "_SimulatedDevice__send_telemetry")) as [->|H2];
    [by rewrite !lookup_insert_eq|].
  rewrite !(lookup_insert_ne _ "_SimulatedDevice__send_telemetry") by done.
  destruct (decide (k = "_SimulatedDevice__report_state")) as [->|H3];
    [by rewrite !lookup_insert_eq|].
  rewrite !(lookup_insert_ne _ "_SimulatedDevice__report_state") by done.
  rewrite !(lookup_insert_ne _ "_SimulatedDevice__properties") by done.
  rewrite !(lookup_insert_ne _ "_SimulatedDevice__send_telemetry") by done.
  by rewrite !(lookup_insert_ne _ "_SimulatedDevice__report_state") by done.
Qed.

(** ** Which operations stay abstract in a subclass *)

(** The abstract names of a newly registered class. *)
Lemma define_class_abstract (T T' : gmap string pyclass)
  (name base : string) (ns : gmap string method) :
  class_table_ok T ->
  define_class T name base ns = Some T' ->
  exists B K,
    T !! base = Some B /\ T' !! name = Some K
    /\ c_mro K = name :: c_mro B
    /\ forall n,
         n ∈ c_abstract K <->
         c_is_abc B = true
         /\ ((exists mth, ns !! n = Some mth /\ is_abstract mth = true)
             \/ (ns !! n = None /\ n ∈ c_abstract B)).
Proof.
  intros Hok Hdef. pose proof (class_table_ok_inv _ Hok) as Hinv.
  unfold define_class in Hdef.
  destruct (T !! name) eqn:Hname; [discriminate|].
  destruct (T !! base) as [B|] eqn:Hbase; [|discriminate].
  injection Hdef as <-. exists B. eexists.
  split; [done|]. split; [by rewrite lookup_insert_eq|]. split; [done|].
  intros n. cbn [c_abstract].
  assert (name ∉ c_mro B) as Hfresh.
  { intros Hin. destruct (inv_closed _ Hinv base B name Hbase Hin) as [? Hx].
    congruence. }
  destruct (c_is_abc B); [|split; [intros Hn; by apply not_elem_of_empty in Hn
                                  |by intros [? _]]].
  rewrite elem_of_union, own_abstract_spec, elem_of_filter.
  unfold resolves_abstract. simpl. rewrite lookup_insert_eq. simpl.
  split.
  - intros [Hown|[Hres HnB]]; (split; [done|]); [by left|].
    destruct (ns !! n) as [mth|] eqn:Hns; [left; by exists mth|by right].
  - intros [_ [Hown|[Hns HnB]]]; [by left|right]. split; [|done].
    rewrite Hns.
    rewrite (find_method_ext _ T) by (by apply binds_insert_fresh).
    by apply (inv_sound _ Hinv base B).
Qed.

(** X12. What [ABCMeta] leaves abstract in a subclass: registering
    [class name(base): ns] under an ABC base makes a name abstract in the new
    class exactly when the class body binds it to an abstract function, or
    the body does not bind it and it is abstract in the base. (Under a base
    that is not an ABC nothing is abstract.) *)
Theorem subclass_abstract_methods (T T' : gmap string pyclass)
  (name base : string) (ns : gmap string method) :
  class_table_ok T ->
  define_class T name base ns = Some T' ->
  exists B K,
    T !! base = Some B /\ T' !! name = Some K
    /\ c_mro K = name :: c_mro B
    /\ forall n,
         n ∈ c_abstract K <->
         c_is_abc B = true
         /\ ((exists mth, ns !! n = Some mth /\ is_abstract mth = true)
             \/ (ns !! n = None /\ n ∈ c_abstract B)).
Proof.
  intros Hok Hdef. by apply (define_class_abstract T T' name base ns).
Qed.

Lemma subclass_abstract_methods_witness :
  exists B K,
    Example.table !! "Partial" = Some B
    /\ default ∅ (define_class Example.table "Leaf" "Partial"
                    (<["run" := Method false Example.pass_]> ∅))
         !! "Leaf" = Some K
    /\ c_mro K = "Leaf" :: c_mro B
    /\ forall n,
         n ∈ c_abstract K <->
         c_is_abc B = true
         /\ ((exists mth,
                (<["run" := Method false Example.pass_]> ∅ : gmap string method)
                  !! n = Some mth
                /\ is_abstract mth = true)
             \/ ((<["run" := Method false Example.pass_]> ∅ : gmap string method)
                   !! n = None
                 /\ n ∈ c_abstract B)).
Proof.
  refine (subclass_abstract_methods Example.table _ "Leaf" "Partial" _
            example_table_ok _).
  apply some_default. vm_compute. reflexivity.
Defined.

(** X13. A direct subclass of the contract whose body declares nothing
    abstract can be instantiated exactly when its body binds all three of
    [initialize], [on_update] and [run]. *)
Theorem direct_subclass_concrete_iff (T T' : gmap string pyclass)
  (name : string) (ns : gmap string method) :
  class_table_ok T ->
  define_class T name "SimulatedDevice" ns = Some T' ->
  (forall n mth, ns !! n = Some mth -> is_abstract mth = false) ->
  is_concrete T' name = true
  <-> forall op, op ∈ SimulatedDevice.required -> is_Some (ns !! op).
Proof.
  intros Hok Hdef Hplain.
  destruct (define_class_abstract T T' name "SimulatedDevice" ns Hok Hdef)
    as (B & K & HB & HK & _ & Habs).
  pose proof (class_table_ok_inv _ Hok) as Hinv.
  assert (c_is_abc B = true) as Habc.
  { apply (inv_abstract _ Hinv "SimulatedDevice" B "run" HB).
    - unfold SimulatedDevice.required. by repeat constructor.
    - destruct (inv_contract _ Hinv) as (SD & HSD & Hmro & _).
      rewrite HB in HSD. injection HSD as <-. by rewrite Hmro. }
  unfold is_concrete. rewrite HK. rewrite bool_decide_eq_true. split.
  - intros Hempty op Hop. destruct (ns !! op) as [mth|] eqn:Hns; [by eexists|].
    exfalso. apply (not_elem_of_empty (C := gset string) op).
    rewrite <- Hempty. apply Habs. split; [done|]. right. split; [done|].
    by apply (contract_abstract_exact T B op Hok HB).
  - intros Hall. apply set_eq. intros n. split; [|intros Hn].
    + intros Hn. exfalso. apply Habs in Hn as [_ [(mth & Hns & Hab)|[Hns HnB]]].
      * rewrite (Hplain n mth Hns) in Hab. discriminate.
      * apply (contract_abstract_exact T B n Hok HB) in HnB.
        destruct (Hall n HnB) as [mth Hm]. congruence.
    + by apply not_elem_of_empty in Hn.
Qed.

Lemma direct_subclass_concrete_iff_witness :
  is_concrete
    (default ∅ (define_class Example.table "Meter" "SimulatedDevice"
                  (cs_body Example.Thermostat))) "Meter" = true
  <-> forall op, op ∈ SimulatedDevice.required ->
                 is_Some (cs_body Example.Thermostat !! op).
Proof.
  refine (direct_subclass_concrete_iff Example.table _ "Meter"
            (cs_body Example.Thermostat) example_table_ok _ _).
  - apply some_default. vm_compute. reflexivity.
  - intros n mth. unfold Example.Thermostat. simpl.
    rewrite !lookup_insert_Some, lookup_empty.
    intros [[_ <-]|[_ [[_ <-]|[_ [[_ <-]|[_ ?]]]]]]; done.
Defined.

(** ** The private names of the bound references *)

Section PrivateNames.

Lemma chars_app (a b : string) :
  list_ascii_of_string (a +:+ b)
  = list_ascii_of_string a ++ list_ascii_of_string b.
Proof. induction a as [|c a IH]; simpl; [done|]. by rewrite IH. Qed.

(** Strings with a common ending and equal wholes have equal beginnings. *)
Lemma append_cancel_r (a b suffix : string) :
  a +:+ suffix = b +:+ suffix -> a = b.
Proof.
  intros Heq. apply (f_equal list_ascii_of_string) in Heq.
  rewrite !chars_app in Heq. apply app_inv_tail in Heq.
  rewrite <- (string_of_list_ascii_of_string a).
  rewrite <- (string_of_list_ascii_of_string b). by rewrite Heq.
Qed.

Lemma last_char_app (a b : string) :
  b <> "" -> last_char (a +:+ b) = last_char b.
Proof.
  intros Hb. induction a as [|c a IH]; simpl; [done|].
  rewrite IH. destruct (a +:+ b) eqn:Hab; [|done].
  destruct a; [|discriminate]. exfalso. apply Hb. exact Hab.
Qed.

(** A mangled spelling hits one of the contract's three keys only when the
    class part is the contract's name and the identifier is the same. *)
Lemma mangled_key_eq (stripped attr attr' : string) :
  attr ∈ private_attrs -> attr' ∈ private_attrs ->
  "_" +:+ stripped +:+ attr = "_SimulatedDevice" +:+ attr' ->
  stripped = "SimulatedDevice" /\ attr = attr'.
Proof.
  unfold private_attrs. intros Ha Ha' Heq.
  assert (stripped +:+ attr = "SimulatedDevice" +:+ attr') as Heq'.
  { simpl in Heq. by injection Heq. }
  assert (attr = attr') as <-.
  { pose proof (f_equal last_char Heq') as Hlast.
    repeat (apply elem_of_cons in Ha as [->|Ha]);
      try (by apply elem_of_nil in Ha);
      repeat (apply elem_of_cons in Ha' as [->|Ha']);
      try (by apply elem_of_nil in Ha');
      try reflexivity;
      rewrite last_char_app in Hlast by discriminate; discriminate. }
  split; [|done]. by apply (append_cancel_r _ _ attr).
Qed.

Lemma bound_dict_keys (r t p : value) (k : string) :
  is_Some (bound_dict r t p !! k) <->
  k = "_SimulatedDevice__properties" \/ k = "_SimulatedDevice__send_telemetry"
  \/ k = "_SimulatedDevice__report_state".
Proof.
  unfold bound_dict. rewrite !lookup_insert_is_Some', lookup_empty.
  split.
  - intros [<-|[<-|[<-|[? ?]]]]; [by left|by right; left|by right; right|].
    discriminate.
  - intros [-> | [-> | ->]]; [by left|by right; left|by right; right; left].
Qed.

Lemma mangle_private_attr (cls attr : string) :
  attr ∈ private_attrs ->
  mangle_private cls attr
  = match strip_underscores cls with
    | EmptyString => attr
    | stripped => "_" +:+ stripped +:+ attr
    end.
Proof.
  unfold private_attrs. intros Ha.
  repeat (apply elem_of_cons in Ha as [->|Ha]); [reflexivity..|].
  by apply elem_of_nil in Ha.
Qed.

End PrivateNames.

(** X14. The three references are reachable by their private spelling only
    from code compiled inside a class named [SimulatedDevice] (leading
    underscores aside): after the constructor ran on a new object, the
    attribute that [self.__report_state], [self.__send_telemetry] or
    [self.__properties] denotes inside the body of class [cls] is bound
    exactly when [cls] is so named. Written in a subclass with another name,
    the same spelling finds nothing. *)
Theorem private_spelling_needs_contract_name (cls attr : string) (a : nat)
  (r t p : value) (s : interp) :
  attr ∈ private_attrs ->
  heap s !! a = None ->
  exists s',
    SimulatedDevice.__init__ (VObj cls a) [r; t; p] s = (Return VNone, s')
    /\ (is_Some (heap s' !! a ≫= (fun d => d !! mangle_private cls attr))
        <-> strip_underscores cls = "SimulatedDevice").
Proof.
  intros Hattr Hnew. eexists. split; [apply init_binds|].
  simpl. rewrite lookup_insert_eq, Hnew. simpl.
  fold (bound_dict r t p). rewrite bound_dict_keys.
  rewrite (mangle_private_attr cls attr Hattr).
  destruct (strip_underscores cls) as [|c stripped] eqn:Hstrip.
  - split; [|discriminate]. unfold private_attrs in Hattr.
    repeat (apply elem_of_cons in Hattr as [->|Hattr]);
      try (by apply elem_of_nil in Hattr);
      intros [?|[?|?]]; discriminate.
  - split.
    + intros [Hk|[Hk|Hk]].
      * apply (mangled_key_eq _ attr "__properties") in Hk as [? _];
          [done|done|unfold private_attrs; by repeat constructor].
      * apply (mangled_key_eq _ attr "__send_telemetry") in Hk as [? _];
          [done|done|unfold private_attrs; by repeat constructor].
      * apply (mangled_key_eq _ attr "__report_state") in Hk as [? _];
          [done|done|unfold private_attrs; by repeat constructor].
    + intros ->. unfold private_attrs in Hattr.
      repeat (apply elem_of_cons in Hattr as [->|Hattr]);
        [by right; right|by right; left|by left|by apply elem_of_nil in Hattr].
Qed.

Lemma private_spelling_needs_contract_name_witness :
  exists s',
    SimulatedDevice.__init__ (VObj "Thermostat" 0)
      [Example.report_fn; Example.telemetry_fn; Example.props] Example.start
    = (Return VNone, s')
    /\ (is_Some (heap s' !! 0
                 ≫= (fun d => d !! mangle_private "Thermostat" "__report_state"))
        <-> strip_underscores "Thermostat" = "SimulatedDevice").
Proof.
  refine (private_spelling_needs_contract_name "Thermostat" "__report_state" 0
            Example.report_fn Example.telemetry_fn Example.props
            Example.start _ _).
  - unfold private_attrs. by repeat constructor.
  - reflexivity.
Defined.

(** ** Cached modules and plain callables *)

(** X15. A module that is already in [sys.modules] is used as it is cached:
    [create] does not consult the import system's finder at all, so its
    outcome is that of the lookup and the call on the cached module object
    (even if the module could no longer be found or would now load
    differently). *)
Theorem create_uses_cached_module (E : pyenv) (name : string)
  (args : list value) (s : interp) (m : pymodule) :
  sys_modules_ok s ->
  sys_modules s !! module_of name = Some m ->
  create E name args s
  = (let* symbol := getattr m (class_of name) in call E symbol args)
      (Interp (sys_modules s) (heap s) (trace s ++ [EvImport (module_of name)])).
Proof.
  intros Hok Hm. destruct (Hok (module_of name)) as [Hne Hdot]; [by eexists|].
  rewrite create_steps. unfold bind at 1.
  by rewrite (import_module_cached E _ s m Hm Hne Hdot).
Qed.

Lemma create_uses_cached_module_witness :
  create (PyEnv Example.table ∅ Example.ext) "pkg.devices.VERSION" []
    (Interp Example.loaded ∅ [])
  = (let* symbol := getattr (PyModule "pkg.devices" Example.devices_ns)
                      (class_of "pkg.devices.VERSION") in
     call (PyEnv Example.table ∅ Example.ext) symbol [])
      (Interp Example.loaded ∅
         ([] ++ [EvImport (module_of "pkg.devices.VERSION")])).
Proof.
  refine (create_uses_cached_module (PyEnv Example.table ∅ Example.ext)
            "pkg.devices.VERSION" []
            (Interp Example.loaded ∅ [])
            (PyModule "pkg.devices" Example.devices_ns) _ _).
  - intros name. unfold Example.loaded. simpl.
    rewrite !lookup_insert_is_Some', lookup_empty.
    intros [<-|[<-|[? ?]]]; [done|done|discriminate].
  - vm_compute. reflexivity.
Defined.

(** X16. A name that resolves to a plain function makes [create] an
    ordinary call of it: the function is invoked once, with the forwarded
    arguments unchanged and in order, and what it answers (a value or an
    error) is the outcome of [create], unwrapped; no object is allocated. *)
Theorem create_calls_function (E : pyenv) (name f : string)
  (args : list value) (s s1 : interp) (m : pymodule) :
  import_module E (module_of name) s = (Return m, s1) ->
  mod_dict m !! class_of name = Some (VFunc f) ->
  create E name args s
  = (extern E f args,
     Interp (sys_modules s1) (heap s)
       (trace s ++ [EvImport (module_of name);
                    EvGetattr (mod_name m) (class_of name);
                    EvCall (VFunc f) args;
                    EvInvoke f args])).
Proof.
  intros Himp Hattr.
  rewrite (create_reaches_call E name args s s1 m _ Himp Hattr).
  unfold call, invoke, bind, log. simpl. by rewrite <- !app_assoc.
Qed.

Lemma create_calls_function_witness :
  create Example.env "pkg.devices.other_callback" [VInt 1; VInt 2] Example.start
  = (extern Example.env "other_callback" [VInt 1; VInt 2],
     Interp Example.loaded ∅
       ([] ++ [EvImport (module_of "pkg.devices.other_callback");
               EvGetattr "pkg.devices" (class_of "pkg.devices.other_callback");
               EvCall (VFunc "other_callback") [VInt 1; VInt 2];
               EvInvoke "other_callback" [VInt 1; VInt 2]])).
Proof.
  refine (create_calls_function Example.env "pkg.devices.other_callback"
            "other_callback" [VInt 1; VInt 2] Example.start
            (Interp Example.loaded
               ∅ [EvImport "pkg.devices"])
            (PyModule "pkg.devices" Example.devices_ns) _ _).
  - vm_compute. reflexivity.
  - vm_compute. reflexivity.
Defined.
